(** * noxfile.py of python-bigquery: sessions, their commands and their outcomes

    A shallow embedding of [noxfile.py].  A session is a Python function over
    a [session] object; it asks the task runner to install packages and to
    run external commands, may clear a directory, read a file, read the
    clock and print.  Here a session is a function over an explicit [World]
    (files, clock, console, and the record of what was asked), in a small
    exception-and-state monad.  What an external command does is not decided
    by the noxfile: it is a parameter ([tool]) of the whole development. *)

From Stdlib Require Import Ascii String ZArith QArith Qround Lia Lqa DecimalString.
From stdpp Require Import base strings list gmap.

Local Open Scope Z_scope.
Local Open Scope string_scope.
Local Open Scope list_scope.

(** ** Strings and paths *)

Module Str.

(** [s.startswith("/")] and [s.endswith("/")]. *)
Definition startswith_sep (s : string) : bool :=
  match s with
  | String c _ => bool_decide (c = "/"%char)
  | EmptyString => false
  end.

Fixpoint endswith_sep (s : string) : bool :=
  match s with
  | EmptyString => false
  | String c EmptyString => bool_decide (c = "/"%char)
  | String _ rest => endswith_sep rest
  end.

(** [s.split(sep)] for a one-character separator. *)
Fixpoint split_on (sep : ascii) (s : string) : list string :=
  match s with
  | EmptyString => [EmptyString]
  | String c rest =>
      if bool_decide (c = sep) then EmptyString :: split_on sep rest
      else match split_on sep rest with
           | h :: t => String c h :: t
           | [] => [String c EmptyString]
           end
  end.

(** [str(n)] for an [int]. *)
Definition of_int (n : Z) : string := NilZero.string_of_int (Z.to_int n).

(** The format specification [0>w]: fill with ["0"], align right, at least
    [w] characters. *)
Fixpoint zeros (n : nat) : string :=
  match n with
  | O => EmptyString
  | S k => String "0" (zeros k)
  end.

Definition fill0_right (w : nat) (s : string) : string :=
  zeros (w - String.length s) +:+ s.

End Str.

(** [os.path.join] of [posixpath]. *)
Definition os_path_join (a : string) (p : list string) : string :=
  foldl (fun path b =>
           if Str.startswith_sep b then b
           else if bool_decide (path = EmptyString) || Str.endswith_sep path
                then path +:+ b
                else path +:+ "/" +:+ b) a p.

(** A [pathlib.PurePosixPath]: whether it starts at the root, and its
    named components. *)
Record PosixPath := { absolute : bool; names : list string }.

Definition path_names (s : string) : list string :=
  filter (fun x => x <> EmptyString /\ x <> ".") (Str.split_on "/" s).

(** [p / s]: an absolute right operand replaces the path, any other one is
    parsed into components (empty ones and ["."] dropped) and appended. *)
Definition truediv (p : PosixPath) (s : string) : PosixPath :=
  if Str.startswith_sep s then {| absolute := true; names := path_names s |}
  else {| absolute := absolute p; names := names p ++ path_names s |}.

(** [str(p)]. *)
Definition path_str (p : PosixPath) : string :=
  if absolute p then "/" +:+ String.concat "/" (names p)
  else match names p with
       | [] => "."
       | _ => String.concat "/" (names p)
       end.

Infix "/:" := truediv (at level 40, left associativity).

(** ** Module-level constants (noxfile.py:26-43) *)

Definition MYPY_VERSION := "mypy==1.6.1".
Definition PYTYPE_VERSION := "pytype==2024.9.13".
Definition BLACK_VERSION := "black==23.7.0".
Definition BLACK_PATHS : list string :=
  [ "benchmark"; "docs"; "google"; "samples"; "samples/tests"; "tests";
    "noxfile.py"; "setup.py" ].

Definition DEFAULT_PYTHON_VERSION := "3.9".
Definition SYSTEM_TEST_PYTHON_VERSIONS : list string := ["3.9"; "3.11"; "3.12"; "3.13"].
Definition UNIT_TEST_PYTHON_VERSIONS : list string := ["3.9"; "3.11"; "3.12"; "3.13"].

(** [lst[0]] and [lst[-1]] on the version lists (both are non-empty, so the
    [IndexError] branch is never taken; it is rendered as [""]). *)
Definition first_of (l : list string) : string := default EmptyString (head l).
Definition last_of (l : list string) : string := default EmptyString (last l).

(** [nox.options.sessions] (noxfile.py:67-80). *)
Definition default_sessions : list string :=
  [ "unit_noextras"; "unit"; "system"; "snippets"; "cover"; "lint";
    "lint_setup_py"; "blacken"; "mypy"; "mypy_samples"; "pytype"; "docs" ].

(** ** The regular expression of [prerelease_deps] (noxfile.py:387-392)

    [re.finditer(r"^\s*(\S+)(?===\S+)", text, flags=re.MULTILINE)], group 1 of
    every match.  A match starts at the beginning of a line, skips white
    space (line ends included), and takes the longest non-empty stretch of
    the following run of non-space characters that is directly followed by
    [==] and one more non-space character.  The search resumes where the
    match ended.  White space is the ASCII part of Python's [\s]. *)

Module Re.

Definition is_space (c : ascii) : bool :=
  let n := nat_of_ascii c in
  ((9 <=? n) && (n <=? 13) || (28 <=? n) && (n <=? 32))%nat.

Definition is_newline (c : ascii) : bool := bool_decide (c = "010"%char).

(** Greedy [\s*]: the number of characters skipped and what follows. *)
Fixpoint skip_spaces (s : string) : nat * string :=
  match s with
  | String c rest =>
      if is_space c then let '(k, r) := skip_spaces rest in (S k, r) else (O, s)
  | EmptyString => (O, s)
  end.

(** The run of non-space characters at the head of [s]. *)
Fixpoint nonspace_run (s : string) : string :=
  match s with
  | String c rest => if is_space c then EmptyString else String c (nonspace_run rest)
  | EmptyString => EmptyString
  end.

(** The lookahead [(?===\S+)] inside a run of non-space characters. *)
Definition pinned_here (run : string) : bool :=
  match run with
  | String "=" (String "=" (String _ _)) => true
  | _ => false
  end.

(** Greedy [(\S+)] under the lookahead: the longest admissible prefix. *)
Fixpoint name_part (run : string) : option string :=
  match run with
  | EmptyString => None
  | String c rest =>
      match name_part rest with
      | Some g => Some (String c g)
      | None => if pinned_here rest then Some (String c EmptyString) else None
      end
  end.

(** One attempt at a line start: group 1 and the length of the match. *)
Definition match_here (s : string) : option (string * nat) :=
  let '(k, r) := skip_spaces s in
  match name_part (nonspace_run r) with
  | Some g => Some (g, (k + String.length g)%nat)
  | None => None
  end.

(** [bol]: the position is at the start of a line; [skip]: characters still
    inside the previous match. *)
Fixpoint scan (bol : bool) (skip : nat) (s : string) : list string :=
  match s with
  | EmptyString => []
  | String c rest =>
      match skip with
      | S k => scan (is_newline c) k rest
      | O =>
          if bol then
            match match_here s with
            | Some (g, len) => g :: scan (is_newline c) (len - 1) rest
            | None => scan (is_newline c) O rest
            end
          else scan (is_newline c) O rest
      end
  end.

Definition constraint_names (text : string) : list string := scan true O text.

End Re.

(** ** The world a session runs in *)

(** What a session asks of its surroundings. *)
Inductive Action :=
| Install (args : list string)   (* session.install *)
| Run (args : list string)       (* session.run *)
| Rmtree (path : string).        (* shutil.rmtree(path, ignore_errors=True) *)

(** What an external command answers: success, the files it leaves, and
    the time it took. *)
Record Reply := { ok : bool; files_after : gmap string string; took : Q }.

(** Regular files by path (a directory exists through the files below it),
    the monotonic clock, the printed lines, and every action taken so far
    with the files it started on. *)
Record World := {
  files : gmap string string;
  clock : Q;
  console : list string;
  trace : list (Action * gmap string string)
}.

Inductive Exn :=
| SessionSkip (reason : string)      (* raised by session.skip *)
| CommandFailed (a : Action)         (* a command exited with an error *)
| ValueError (msg : string)          (* session.install() without arguments *)
| FileNotFoundError (path : string).

Inductive Result (A : Type) :=
| Returned (a : A)
| Raised (e : Exn).
Arguments Returned {A} a.
Arguments Raised {A} e.

Definition is_returned {A} (r : Result A) : bool :=
  match r with Returned _ => true | Raised _ => false end.

Definition M (A : Type) : Type := World -> Result A * World.

Definition ret {A} (a : A) : M A := fun w => (Returned a, w).

Definition bind {A B} (m : M A) (f : A -> M B) : M B :=
  fun w =>
    match m w with
    | (Returned a, w') => f a w'
    | (Raised e, w') => (Raised e, w')
    end.

Definition raise {A} (e : Exn) : M A := fun w => (Raised e, w).

Declare Scope session_scope.
Delimit Scope session_scope with session.
Notation "x <- m ;; k" := (bind m (fun x => k))
  (at level 100, m at next level, right associativity) : session_scope.
Notation "m ;; k" := (bind m (fun _ => k))
  (at level 100, right associativity) : session_scope.
Local Open Scope session_scope.

(** [if c: body] without an [else]. *)
Definition when (c : bool) (body : M ()) : M () := if c then body else ret tt.

(** [for x in xs: body(x)]. *)
Fixpoint for_each {A} (xs : list A) (body : A -> M ()) : M () :=
  match xs with
  | [] => ret tt
  | x :: rest => body x ;; for_each rest body
  end.

(** [p] is [dir] or lies below it. *)
Definition under (dir p : string) : bool :=
  bool_decide (p = dir) || String.prefix (dir +:+ "/") p.

Definition time_monotonic : M Q := fun w => (Returned (clock w), w).

Definition print (line : string) : M () :=
  fun w => (Returned tt, {| files := files w; clock := clock w;
                            console := console w ++ [line]; trace := trace w |}).

(** [open(path, encoding="utf-8").read()]. *)
Definition read_text (path : string) : M string :=
  fun w => match files w !! path with
           | Some text => (Returned text, w)
           | None => (Raised (FileNotFoundError path), w)
           end.

(** [shutil.rmtree(path, ignore_errors=True)]: everything at or below
    [path] goes; a missing [path] is not an error. *)
Definition shutil_rmtree (path : string) : M () :=
  fun w => (Returned tt,
            {| files := filter (fun kv => under path kv.1 = false) (files w);
               clock := clock w; console := console w;
               trace := trace w ++ [(Rmtree path, files w)] |}).

(** The session object: the interpreter version it runs under and the
    arguments after [--] on the command line. *)
Record Session := { python : string; posargs : list string }.

(** [round(x)] of a Python float, to the nearest integer, ties to the even
    one.  Clock readings are taken as exact rationals. *)
Definition py_round (x : Q) : Z :=
  let f := Qfloor x in
  match Qcompare (x - inject_Z f) (1 # 2) with
  | Lt => f
  | Gt => f + 1
  | Eq => if Z.even f then f else f + 1
  end.

(** ** The sessions *)

Section Noxfile.

(** What external commands do, the process environment, and the directory
    of the noxfile (the names of its absolute path). *)
Variable tool : Action -> gmap string string -> Reply.
Variable environ : gmap string string.
Variable here : list string.

(** [pathlib.Path(__file__).parent.absolute()]. *)
Definition CURRENT_DIRECTORY : PosixPath := {| absolute := true; names := here |}.

(** [os.environ.get(key, default)]. *)
Definition os_environ_get (key dflt : string) : string := default dflt (environ !! key).

(** A command is issued: it is recorded with the files it starts on, the
    files and the clock move as the command says, and a failing command
    raises. *)
Definition external (a : Action) : M () :=
  fun w =>
    let r := tool a (files w) in
    let w' := {| files := files_after r; clock := (clock w + took r)%Q;
                 console := console w; trace := trace w ++ [(a, files w)] |} in
    if ok r then (Returned tt, w') else (Raised (CommandFailed a), w').

(** [session.install]: nox refuses an empty argument list. *)
Definition session_install (args : list string) : M () :=
  match args with
  | [] => raise (ValueError "At least one argument required to install().")
  | _ => external (Install args)
  end.

Definition session_run (args : list string) : M () := external (Run args).

Definition session_skip (reason : string) : M () := raise (SessionSkip reason).

(** [CURRENT_DIRECTORY.glob("samples/*/requirements.txt")]: the files
    [samples/<d>/requirements.txt] below the noxfile's directory, in the
    order the file system lists them. *)
Definition is_sample_requirements (k : string) : bool :=
  let ns := path_names k in
  let d := default EmptyString (ns !! S (length here)) in
  Str.startswith_sep k && bool_decide (ns = here ++ ["samples"; d; "requirements.txt"]).

Definition glob_sample_requirements : M (list PosixPath) :=
  fun w =>
    (Returned
       (map (fun k => {| absolute := true; names := path_names k |})
            (filter (fun k => is_sample_requirements k = true)
                    (map_to_list (files w)).*1)),
     w).

(** The decorator of every session (noxfile.py:46-63). *)
Definition _calculate_duration {A B} (func : A -> M B) : A -> M B :=
  fun args =>
    start <- time_monotonic ;;
    result <- func args ;;
    end_ <- time_monotonic ;;
    let total_seconds := py_round (end_ - start)%Q in
    let hours := total_seconds / 3600 in
    let remaining_seconds := total_seconds mod 3600 in
    let minutes := remaining_seconds / 60 in
    let seconds := remaining_seconds mod 60 in
    let human_time :=
      Str.of_int hours +:+ ":" +:+ Str.fill0_right 2 (Str.of_int minutes)
        +:+ ":" +:+ Str.fill0_right 2 (Str.of_int seconds) in
    print ("Session ran in " +:+ Str.of_int total_seconds +:+ " seconds ("
             +:+ human_time +:+ ")") ;;
    ret result.

(** [str(CURRENT_DIRECTORY / "testing" / f"constraints-{session.python}.txt")],
    as written in [default], [system] and [snippets]. *)
Definition constraints_path (session : Session) : string :=
  path_str (CURRENT_DIRECTORY /: "testing"
              /: ("constraints-" +:+ python session +:+ ".txt")).

(** noxfile.py:83-142. *)
Definition default (session : Session) (install_extras : bool) : M () :=
  let constraints_path := constraints_path session in
  session_install
    [ "pytest"; "google-cloud-testutils"; "pytest-cov"; "pytest-xdist";
      "freezegun"; "-c"; constraints_path ] ;;
  let install_target :=
    if install_extras
       && bool_decide (python session = first_of UNIT_TEST_PYTHON_VERSIONS)
    then ".[bqstorage,pandas,ipywidgets,geopandas,matplotlib,tqdm,opentelemetry,bigquery_v2]"
    else if install_extras then ".[all]"
    else "." in
  session_install ["-e"; install_target; "-c"; constraints_path] ;;
  when (bool_decide (python session = first_of UNIT_TEST_PYTHON_VERSIONS))
       (session_run ["python"; "-m"; "pip"; "uninstall"; "pandas-gbq"; "-y"]) ;;
  session_run ["python"; "-m"; "pip"; "freeze"] ;;
  session_run
    ([ "py.test"; "-n=8"; "--quiet"; "-W default::PendingDeprecationWarning";
       "--cov=google/cloud/bigquery"; "--cov=tests/unit"; "--cov-append";
       "--cov-config=.coveragerc"; "--cov-report="; "--cov-fail-under=0";
       os_path_join "tests" ["unit"] ] ++ posargs session).

(** noxfile.py:145-150. *)
Definition unit : Session -> M () :=
  _calculate_duration (fun session => default session true).

(** noxfile.py:153-167. *)
Definition unit_noextras : Session -> M () :=
  _calculate_duration (fun session =>
    when (bool_decide (python session = first_of UNIT_TEST_PYTHON_VERSIONS))
         (session_install ["pyarrow==4.0.0"; "numpy==1.20.2"]) ;;
    default session false).

(** noxfile.py:170-187. *)
Definition mypy : Session -> M () :=
  _calculate_duration (fun session =>
    session_install ["-e"; ".[all]"] ;;
    session_install [MYPY_VERSION] ;;
    session_install
      [ "types-protobuf"; "types-python-dateutil"; "types-requests";
        "types-setuptools" ] ;;
    session_run ["python"; "-m"; "pip"; "freeze"] ;;
    session_run ["mypy"; "-p"; "google"; "--show-traceback"]).

(** noxfile.py:190-203. *)
Definition pytype : Session -> M () :=
  _calculate_duration (fun session =>
    session_install ["attrs==20.3.0"] ;;
    session_install ["-e"; ".[all]"] ;;
    session_install [PYTYPE_VERSION] ;;
    session_run ["python"; "-m"; "pip"; "freeze"] ;;
    session_run ["pytype"; "-P"; "."; "google/cloud/bigquery"]).

(** noxfile.py:206-269. *)
Definition system : Session -> M () :=
  _calculate_duration (fun session =>
    let constraints_path := constraints_path session in
    when (bool_decide (os_environ_get "GOOGLE_APPLICATION_CREDENTIALS" "" = ""))
         (session_skip "Credentials must be set via environment variable.") ;;
    session_install ["--pre"; "grpcio!=1.49.0rc1"; "-c"; constraints_path] ;;
    session_install
      [ "pytest"; "psutil"; "pytest-xdist"; "google-cloud-testutils"; "-c";
        constraints_path ] ;;
    (if bool_decide (os_environ_get "GOOGLE_API_USE_CLIENT_CERTIFICATE" "" = "true")
     then session_install ["google-cloud-storage"; "pyopenssl"]
     else session_install ["google-cloud-storage"; "-c"; constraints_path]) ;;
    session_install ["google-cloud-datacatalog"; "-c"; constraints_path] ;;
    session_install ["google-cloud-resource-manager"; "-c"; constraints_path] ;;
    let extras :=
      if bool_decide (python session ∈ ["3.11"; "3.12"])
      then "[bqstorage,ipywidgets,pandas,tqdm,opentelemetry]"
      else "[all]" in
    session_install ["-e"; "." +:+ extras; "-c"; constraints_path] ;;
    when (bool_decide (python session = first_of SYSTEM_TEST_PYTHON_VERSIONS))
         (session_run ["python"; "-m"; "pip"; "uninstall"; "pandas-gbq"; "-y"]) ;;
    session_run ["python"; "-m"; "pip"; "freeze"] ;;
    session_run
      ([ "py.test"; "-n=auto"; "--quiet";
         "-W default::PendingDeprecationWarning";
         os_path_join "tests" ["system"] ] ++ posargs session)).

(** noxfile.py:272-305. *)
Definition mypy_samples : Session -> M () :=
  _calculate_duration (fun session =>
    session_install ["pytest"] ;;
    requirements <- glob_sample_requirements ;;
    for_each requirements (fun requirements_path =>
      session_install ["-r"; path_str requirements_path]) ;;
    session_install [MYPY_VERSION] ;;
    session_install ["-e"; ".[all]"] ;;
    session_install
      [ "types-mock"; "types-pytz"; "types-protobuf!=4.24.0.20240106";
        "types-python-dateutil"; "types-requests"; "types-setuptools" ] ;;
    session_run ["python"; "-m"; "pip"; "freeze"] ;;
    session_run
      [ "mypy"; "--config-file";
        path_str (CURRENT_DIRECTORY /: "samples" /: "mypy.ini");
        "--no-incremental"; "samples/" ]).

(** noxfile.py:308-350. *)
Definition snippets : Session -> M () :=
  _calculate_duration (fun session =>
    let constraints_path := constraints_path session in
    session_install
      ["pytest"; "pytest-xdist"; "google-cloud-testutils"; "-c"; constraints_path] ;;
    session_install ["google-cloud-storage"; "-c"; constraints_path] ;;
    session_install ["grpcio"; "-c"; constraints_path] ;;
    let extras :=
      if bool_decide (python session ∈ ["3.11"; "3.12"])
      then "[bqstorage,pandas,ipywidgets,geopandas,tqdm,opentelemetry,bigquery_v2]"
      else "[all]" in
    session_install ["-e"; "." +:+ extras; "-c"; constraints_path] ;;
    session_run ["python"; "-m"; "pip"; "freeze"] ;;
    session_run
      (["py.test"; "-n=auto"; os_path_join "docs" ["snippets.py"]]
         ++ posargs session) ;;
    session_run
      ([ "py.test"; "-n=auto"; "samples";
         "-W default::PendingDeprecationWarning";
         "--ignore=samples/desktopapp"; "--ignore=samples/magics";
         "--ignore=samples/geography"; "--ignore=samples/notebooks";
         "--ignore=samples/snippets" ] ++ posargs session)).

(** noxfile.py:353-365. *)
Definition cover : Session -> M () :=
  _calculate_duration (fun session =>
    session_install ["coverage"; "pytest-cov"] ;;
    session_run ["python"; "-m"; "pip"; "freeze"] ;;
    session_run ["coverage"; "report"; "--show-missing"; "--fail-under=100"] ;;
    session_run ["coverage"; "erase"]).

(** noxfile.py:368-470. *)
Definition prerelease_deps : Session -> M () :=
  _calculate_duration (fun session =>
    constraints_text <-
      read_text
        (path_str (CURRENT_DIRECTORY /: "testing"
                     /: ("constraints-" +:+ first_of UNIT_TEST_PYTHON_VERSIONS
                           +:+ ".txt"))) ;;
    let deps := Re.constraint_names constraints_text in
    session_install deps ;;
    session_install
      [ "--pre"; "--upgrade"; "freezegun"; "google-cloud-datacatalog";
        "google-cloud-resource-manager"; "google-cloud-storage";
        "google-cloud-testutils"; "psutil"; "pytest"; "pytest-xdist";
        "pytest-cov" ] ;;
    session_install
      [ "--extra-index-url";
        "https://pypi.anaconda.org/scientific-python-nightly-wheels/simple";
        "--prefer-binary"; "--pre"; "--upgrade"; "pyarrow" ] ;;
    session_install
      [ "--pre"; "--upgrade"; "IPython"; "ipykernel"; "ipywidgets"; "tqdm";
        "git+https://github.com/pypa/packaging.git"; "pandas" ] ;;
    session_install
      [ "--pre"; "--upgrade"; "--no-deps"; "google-api-core";
        "google-cloud-bigquery-storage"; "google-cloud-core";
        "google-resumable-media"; "db-dtypes"; "grpcio"; "protobuf" ] ;;
    session_install ["-e"; "."; "--no-deps"] ;;
    session_run ["python"; "-m"; "pip"; "freeze"] ;;
    session_run
      ["py.test"; "-n=auto"; "tests/unit"; "-W default::PendingDeprecationWarning"] ;;
    session_run
      ["py.test"; "-n=auto"; "tests/system"; "-W default::PendingDeprecationWarning"] ;;
    session_run
      ["py.test"; "-n=auto"; "samples/tests"; "-W default::PendingDeprecationWarning"]).

(** noxfile.py:473-490. *)
Definition lint : Session -> M () :=
  _calculate_duration (fun session =>
    session_install ["flake8"; BLACK_VERSION] ;;
    session_install ["-e"; "."] ;;
    session_run ["python"; "-m"; "pip"; "freeze"] ;;
    session_run ["flake8"; os_path_join "google" ["cloud"; "bigquery"]] ;;
    session_run ["flake8"; "tests"] ;;
    session_run ["flake8"; os_path_join "docs" ["samples"]] ;;
    session_run ["flake8"; os_path_join "docs" ["snippets.py"]] ;;
    session_run ["flake8"; "benchmark"] ;;
    session_run (["black"; "--check"] ++ BLACK_PATHS)).

(** noxfile.py:493-500. *)
Definition lint_setup_py : Session -> M () :=
  _calculate_duration (fun session =>
    session_install ["docutils"; "Pygments"] ;;
    session_run ["python"; "-m"; "pip"; "freeze"] ;;
    session_run ["python"; "setup.py"; "check"; "--restructuredtext"; "--strict"]).

(** noxfile.py:503-512. *)
Definition blacken : Session -> M () :=
  _calculate_duration (fun session =>
    session_install [BLACK_VERSION] ;;
    session_run ["python"; "-m"; "pip"; "freeze"] ;;
    session_run (["black"] ++ BLACK_PATHS)).

(** noxfile.py:515-550. *)
Definition docs : Session -> M () :=
  _calculate_duration (fun session =>
    session_install
      [ "sphinxcontrib-applehelp==1.0.4"; "sphinxcontrib-devhelp==1.0.2";
        "sphinxcontrib-htmlhelp==2.0.1"; "sphinxcontrib-qthelp==1.0.3";
        "sphinxcontrib-serializinghtml==1.1.5"; "sphinx==4.5.0"; "alabaster";
        "recommonmark" ] ;;
    session_install ["google-cloud-storage"] ;;
    session_install ["-e"; ".[all]"] ;;
    shutil_rmtree (os_path_join "docs" ["_build"]) ;;
    session_run ["python"; "-m"; "pip"; "freeze"] ;;
    session_run
      [ "sphinx-build"; "-W"; "-T"; "-N"; "-b"; "html"; "-d";
        os_path_join "docs" ["_build"; "doctrees"; ""];
        os_path_join "docs" [""];
        os_path_join "docs" ["_build"; "html"; ""] ]).

(** noxfile.py:553-598. *)
Definition docfx : Session -> M () :=
  _calculate_duration (fun session =>
    session_install ["-e"; "."] ;;
    session_install
      [ "sphinxcontrib-applehelp==1.0.4"; "sphinxcontrib-devhelp==1.0.2";
        "sphinxcontrib-htmlhelp==2.0.1"; "sphinxcontrib-qthelp==1.0.3";
        "sphinxcontrib-serializinghtml==1.1.5"; "gcp-sphinx-docfx-yaml";
        "alabaster"; "recommonmark" ] ;;
    shutil_rmtree (os_path_join "docs" ["_build"]) ;;
    session_run ["python"; "-m"; "pip"; "freeze"] ;;
    session_run
      [ "sphinx-build"; "-T"; "-N"; "-D";
        "extensions=sphinx.ext.autodoc,"
          +:+ "sphinx.ext.autosummary,"
          +:+ "docfx_yaml.extension,"
          +:+ "sphinx.ext.intersphinx,"
          +:+ "sphinx.ext.coverage,"
          +:+ "sphinx.ext.napoleon,"
          +:+ "sphinx.ext.todo,"
          +:+ "sphinx.ext.viewcode,"
          +:+ "recommonmark";
        "-b"; "html"; "-d";
        os_path_join "docs" ["_build"; "doctrees"; ""];
        os_path_join "docs" [""];
        os_path_join "docs" ["_build"; "html"; ""] ]).

(** The sessions the noxfile registers through [@nox.session], in source
    order, each with the interpreter versions it is declared for. *)
Definition registered : list (string * (list string * (Session -> M ()))) :=
  [ ("unit", (UNIT_TEST_PYTHON_VERSIONS, unit));
    ("unit_noextras",
       ([first_of UNIT_TEST_PYTHON_VERSIONS; last_of UNIT_TEST_PYTHON_VERSIONS],
        unit_noextras));
    ("mypy", ([DEFAULT_PYTHON_VERSION], mypy));
    ("pytype", ([DEFAULT_PYTHON_VERSION], pytype));
    ("system", (SYSTEM_TEST_PYTHON_VERSIONS, system));
    ("mypy_samples", ([DEFAULT_PYTHON_VERSION], mypy_samples));
    ("snippets", (SYSTEM_TEST_PYTHON_VERSIONS, snippets));
    ("cover", ([DEFAULT_PYTHON_VERSION], cover));
    ("prerelease_deps", (SYSTEM_TEST_PYTHON_VERSIONS, prerelease_deps));
    ("lint", ([DEFAULT_PYTHON_VERSION], lint));
    ("lint_setup_py", ([DEFAULT_PYTHON_VERSION], lint_setup_py));
    ("blacken", ([DEFAULT_PYTHON_VERSION], blacken));
    ("docs", (["3.10"], docs));
    ("docfx", (["3.10"], docfx)) ].

Definition registered_names : list string := registered.*1.

(** Modelled from the spec: the task runner's dispatch on a session name
    ([<tool> -s <session_name> -- <posargs>]).  It is done by the nox
    program, of which the source holds only the registrations above.  The
    spec: given a task name, locate and execute the corresponding
    procedure; an unknown name fails with a "no such session" error and a
    non-zero exit, and a skipped session is not a failure.  The procedure
    is run once for each interpreter version it is declared for. *)
Inductive Dispatch :=
| NoSuchSession (name : string)
| Executed (proc : Session -> M ()) (outcomes : list (Result ())).

Fixpoint find_session (name : string)
    (table : list (string * (list string * (Session -> M ()))))
    : option (list string * (Session -> M ())) :=
  match table with
  | [] => None
  | (n, entry) :: rest =>
      if bool_decide (n = name) then Some entry else find_session name rest
  end.

Fixpoint run_versions (proc : Session -> M ()) (args : list string)
    (versions : list string) (w : World) : list (Result ()) * World :=
  match versions with
  | [] => ([], w)
  | v :: rest =>
      let '(r, w1) := proc {| python := v; posargs := args |} w in
      let '(rs, w2) := run_versions proc args rest w1 in
      (r :: rs, w2)
  end.

Definition dispatch (name : string) (args : list string) (w : World)
    : Dispatch * World :=
  match find_session name registered with
  | None => (NoSuchSession name, w)
  | Some (versions, proc) =>
      let '(rs, w') := run_versions proc args versions w in
      (Executed proc rs, w')
  end.

Definition session_passed (r : Result ()) : bool :=
  match r with
  | Returned _ | Raised (SessionSkip _) => true
  | Raised _ => false
  end.

Definition exits_zero (d : Dispatch) : bool :=
  match d with
  | NoSuchSession _ => false
  | Executed _ rs => forallb session_passed rs
  end.

End Noxfile.

(** ** Concrete surroundings, used to run the sessions on examples *)

Module Sample.

Definition newline : string := String "010"%char EmptyString.

(** Every command succeeds in a second and a half; the documentation
    generator leaves a page behind. *)
Definition obliging (a : Action) (fs : gmap string string) : Reply :=
  {| ok := true;
     files_after :=
       match a with
       | Run ("sphinx-build" :: _) => <["docs/_build/html/index.html" := "<html>"]> fs
       | _ => fs
       end;
     took := 3 # 2 |}.

Definition checkout : list string := ["src"; "python-bigquery"].

Definition constraints_text : string :=
  "# pinned" +:+ newline +:+ "  numpy==1.20.2" +:+ newline +:+ newline
    +:+ "pandas>=1.0" +:+ newline +:+ "grpcio==1.47.0" +:+ newline.

Definition fresh : World :=
  {| files := {[ "/src/python-bigquery/testing/constraints-3.9.txt" := constraints_text ]};
     clock := 0; console := []; trace := [] |}.

Definition on (version : string) (args : list string) : Session :=
  {| python := version; posargs := args |}.


(** As [obliging], but the style checker finds something to complain of. *)
Definition strict (a : Action) (fs : gmap string string) : Reply :=
  {| ok := match a with Run ("flake8" :: _) => false | _ => true end;
     files_after := fs;
     took := 1 # 4 |}.


End Sample.

(** ** Specification vocabulary *)

(** The commands [m] issues from [w] follow [script]: they are the first
    commands of [script], in order, and all of it when [m] returns. *)
Definition follows_script {A} (m : M A) (w : World) (script : list Action) : Prop :=
  exists steps,
    trace (m w).2 = trace w ++ steps
    /\ steps.*1 `prefix_of` script
    /\ (is_returned (m w).1 = true -> steps.*1 = script).

(** Every time [m] runs the program [prog] from [w] its arguments satisfy
    [P], and [m] does not return without having run it. *)
Definition runs_only {A} (prog : string) (m : M A) (w : World)
    (P : list string -> Prop) : Prop :=
  exists steps,
    trace (m w).2 = trace w ++ steps
    /\ (forall args, Run (prog :: args) ∈ steps.*1 -> P args)
    /\ (is_returned (m w).1 = true -> exists args, Run (prog :: args) ∈ steps.*1).






(** Commands that several sessions share. *)
Definition pip_freeze : Action := Run ["python"; "-m"; "pip"; "freeze"].

Definition uninstall_pandas_gbq : Action :=
  Run ["python"; "-m"; "pip"; "uninstall"; "pandas-gbq"; "-y"].

Definition narrow_target : string :=
  ".[bqstorage,pandas,ipywidgets,geopandas,matplotlib,tqdm,opentelemetry,bigquery_v2]".

(** The constraints file [prerelease_deps] reads. *)
Definition prerelease_constraints (here : list string) : string :=
  path_str (CURRENT_DIRECTORY here /: "testing" /: "constraints-3.9.txt").

(** The two calls of the documentation generator. *)
Definition docfx_extensions : string :=
  "extensions=sphinx.ext.autodoc,sphinx.ext.autosummary,docfx_yaml.extension,"
    +:+ "sphinx.ext.intersphinx,sphinx.ext.coverage,sphinx.ext.napoleon,"
    +:+ "sphinx.ext.todo,sphinx.ext.viewcode,recommonmark".

Definition docs_build : list string :=
  [ "sphinx-build"; "-W"; "-T"; "-N"; "-b"; "html"; "-d";
    "docs/_build/doctrees/"; "docs/"; "docs/_build/html/" ].

Definition docfx_build : list string :=
  [ "sphinx-build"; "-T"; "-N"; "-D"; docfx_extensions; "-b"; "html"; "-d";
    "docs/_build/doctrees/"; "docs/"; "docs/_build/html/" ].






(** *** The conduct of whole sessions *)

(** A recorded step went well: the command it issued reported success
    (clearing a directory always does). *)
Definition succeeded (tool : Action -> gmap string string -> Reply)
    (step : Action * gmap string string) : Prop :=
  match step.1 with
  | Rmtree _ => True
  | a => ok (tool a step.2) = true
  end.

(** [m] stops at the first command that fails: when it ends with
    [CommandFailed a], the command [a] is the last thing it did, it did
    fail, and everything before it went well; in every other case
    everything it did went well. *)
Definition halts_at_first_failure (tool : Action -> gmap string string -> Reply)
    {A} (m : M A) (w : World) : Prop :=
  exists steps,
    trace (m w).2 = trace w ++ steps
    /\ match (m w).1 with
       | Raised (CommandFailed a) =>
           exists before fs,
             steps = before ++ [(a, fs)]
             /\ ok (tool a fs) = false
             /\ Forall (succeeded tool) before
       | _ => Forall (succeeded tool) steps
       end.

(** The exceptions a session of a given name may end with. *)
Definition expected_exception (environ : gmap string string) (here : list string)
    (name : string) (e : Exn) : Prop :=
  match e with
  | CommandFailed _ => True
  | SessionSkip reason =>
      name = "system"
      /\ reason = "Credentials must be set via environment variable."
      /\ os_environ_get environ "GOOGLE_APPLICATION_CREDENTIALS" "" = ""
  | FileNotFoundError path =>
      name = "prerelease_deps" /\ path = prerelease_constraints here
  | ValueError _ => name = "prerelease_deps"
  end.

(** The three together, for the body of a session: it stops at the first
    failure, prints nothing itself, and raises only what is allowed. *)
Definition conduct (tool : Action -> gmap string string -> Reply)
    (allowed : Exn -> Prop) {A} (m : M A) (w : World) : Prop :=
  halts_at_first_failure tool m w
  /\ console (m w).2 = console w
  /\ forall e, (m w).1 = Raised e -> allowed e.

(** The line the decorator prints for [total_seconds] (noxfile.py:55-60). *)
Definition timing_line (total_seconds : Z) : string :=
  "Session ran in " +:+ Str.of_int total_seconds +:+ " seconds ("
    +:+ (Str.of_int (total_seconds / 3600) +:+ ":"
           +:+ Str.fill0_right 2 (Str.of_int (total_seconds mod 3600 / 60))
           +:+ ":"
           +:+ Str.fill0_right 2 (Str.of_int (total_seconds mod 3600 mod 60)))
    +:+ ")".

(** Everything [m] does from [w] satisfies [P]. *)
Definition issues_only {A} (P : Action -> Prop) (m : M A) (w : World) : Prop :=
  exists steps,
    trace (m w).2 = trace w ++ steps /\ Forall (fun step => P step.1) steps.

(** [m] does [a] only when [c] holds, and, when [c] holds, does not return
    without having done it. *)
Definition issues_exactly_when {A} (a : Action) (c : Prop) (m : M A) (w : World)
    : Prop :=
  exists steps,
    trace (m w).2 = trace w ++ steps
    /\ (a ∈ steps.*1 -> c)
    /\ (is_returned (m w).1 = true -> c -> a ∈ steps.*1).

(** The arguments of an installation end with [-c path]. *)
Definition pinned (path : string) (args : list string) : Prop :=
  exists packages, args = packages ++ ["-c"; path].

(** Every character of [s] satisfies [p]. *)
Fixpoint every_char (p : ascii -> bool) (s : string) : bool :=
  match s with
  | EmptyString => true
  | String c rest => p c && every_char p rest
  end.

Definition slash_free (s : string) : bool :=
  every_char (fun c => negb (bool_decide (c = "/"%char))) s.





(** In a list of actions, every run of a program other than [python] comes
    after the listing of the installed packages. *)
Definition freeze_first (actions : list Action) : Prop :=
  forall before prog args after,
    actions = before ++ Run (prog :: args) :: after ->
    prog <> "python" ->
    Run ["python"; "-m"; "pip"; "freeze"] ∈ before.

Definition lists_packages_first {A} (m : M A) (w : World) : Prop :=
  exists steps, trace (m w).2 = trace w ++ steps /\ freeze_first steps.*1.

(** An action that comes before the tools: an installation, the clearing
    of a directory, or a run of [python]. *)
Definition preparation (a : Action) : Prop :=
  forall prog args, a = Run (prog :: args) -> prog = "python".

(** ** The script calculus *)

Section Scripts.

Variable tool : Action -> gmap string string -> Reply.

Lemma script_conv {A} (m : M A) w s s' :
  follows_script m w s -> s = s' -> follows_script m w s'.
Proof. by intros H <-. Qed.

Lemma script_ret {A} (a : A) w : follows_script (ret a) w [].
Proof. exists []. by rewrite app_nil_r. Qed.

Lemma script_raise {A} e w : follows_script (@raise A e) w [].
Proof. exists []. by rewrite app_nil_r. Qed.

Lemma script_bind {A B} (m : M A) (f : A -> M B) w s1 s2 :
  follows_script m w s1 ->
  (forall a w1, m w = (Returned a, w1) -> follows_script (f a) w1 s2) ->
  follows_script (bind m f) w (s1 ++ s2).
Proof.
  intros (steps1 & Ht1 & Hp1 & Hr1) Hk. unfold follows_script, bind.
  destruct (m w) as [[a|e] w1] eqn:Hm; simpl in *.
  - destruct (Hk a w1 eq_refl) as (steps2 & Ht2 & Hp2 & Hr2).
    exists (steps1 ++ steps2). rewrite Ht2, Ht1, fmap_app, Hr1 by done.
    split; [by rewrite (assoc_L (++))|]. split; [by apply prefix_app|].
    intros Hret. by rewrite Hr2.
  - exists steps1. split; [done|]. split; [by apply prefix_app_r|done].
Qed.

Lemma script_external a w : follows_script (external tool a) w [a].
Proof.
  unfold follows_script, external. exists [(a, files w)].
  by destruct (ok (tool a (files w))).
Qed.

Lemma script_run args w : follows_script (session_run tool args) w [Run args].
Proof. apply script_external. Qed.

Lemma script_install x args w :
  follows_script (session_install tool (x :: args)) w [Install (x :: args)].
Proof. apply script_external. Qed.

Lemma script_skip reason w : follows_script (session_skip reason) w [].
Proof. apply script_raise. Qed.

Lemma script_rmtree path w : follows_script (shutil_rmtree path) w [Rmtree path].
Proof. by exists [(Rmtree path, files w)]. Qed.

Lemma script_read path w : follows_script (read_text path) w [].
Proof.
  unfold follows_script, read_text. exists [].
  destruct (files w !! path); by rewrite app_nil_r.
Qed.

Lemma script_read_some {A} path text (f : string -> M A) w s :
  files w !! path = Some text ->
  follows_script (f text) w s -> follows_script (bind (read_text path) f) w s.
Proof. intros Hfile. unfold follows_script, bind, read_text. by rewrite Hfile. Qed.

Lemma script_when c body w s :
  follows_script body w s -> follows_script (when c body) w (if c then s else []).
Proof. destruct c; [done|]. intros _. apply script_ret. Qed.

Lemma script_duration {A B} (func : A -> M B) args w s :
  follows_script (func args) w s ->
  follows_script (_calculate_duration func args) w s.
Proof.
  intros (steps & Ht & Hp & Hr). exists steps.
  unfold _calculate_duration, bind, time_monotonic, print, ret.
  by destruct (func args w) as [[b|e] w1].
Qed.

(** What is known of a script is known of every run that follows it. *)
Lemma script_runs_only {A} prog (m : M A) w s (P : list string -> Prop) :
  follows_script m w s ->
  (forall args, Run (prog :: args) ∈ s -> P args) ->
  (exists args, Run (prog :: args) ∈ s) ->
  runs_only prog m w P.
Proof.
  intros (steps & Ht & Hp & Hr) HP Hex. exists steps.
  split; [done|]. split.
  - intros args Hin. apply HP. by eapply elem_of_prefix.
  - intros Hret. by rewrite Hr.
Qed.

End Scripts.

(** Steps through a session body, collecting its script. *)
Ltac script_steps :=
  repeat first
    [ apply script_duration
    | eapply script_bind; [|intros ? ? _]
    | apply script_install
    | apply script_run
    | apply script_rmtree
    | apply script_skip
    | apply script_when
    | apply script_read
    | apply script_ret ].

Ltac script := eapply script_conv; [script_steps|try reflexivity].

(** Decides which entry of an explicit script a command is. *)
Ltac which_command H :=
  repeat (apply elem_of_cons in H as [H|H]; [try discriminate H|]);
  try (by apply elem_of_nil in H).

(** ** Scripts of the sessions *)


Section SessionScripts.

Variable tool : Action -> gmap string string -> Reply.
Variable environ : gmap string string.
Variable here : list string.

Lemma default_script session extras w :
  follows_script (default tool here session extras) w
    ([ Install [ "pytest"; "google-cloud-testutils"; "pytest-cov"; "pytest-xdist";
                 "freezegun"; "-c"; constraints_path here session ];
       Install [ "-e";
                 if extras && bool_decide (python session = "3.9") then narrow_target
                 else if extras then ".[all]" else ".";
                 "-c"; constraints_path here session ] ]
     ++ (if bool_decide (python session = "3.9") then [uninstall_pandas_gbq] else [])
     ++ [ pip_freeze;
          Run ([ "py.test"; "-n=8"; "--quiet";
                 "-W default::PendingDeprecationWarning";
                 "--cov=google/cloud/bigquery"; "--cov=tests/unit"; "--cov-append";
                 "--cov-config=.coveragerc"; "--cov-report="; "--cov-fail-under=0";
                 "tests/unit" ] ++ posargs session) ]).
Proof. unfold default. script. Qed.

Lemma unit_script session w :
  follows_script (unit tool here session) w
    ([ Install [ "pytest"; "google-cloud-testutils"; "pytest-cov"; "pytest-xdist";
                 "freezegun"; "-c"; constraints_path here session ];
       Install [ "-e";
                 if bool_decide (python session = "3.9") then narrow_target else ".[all]";
                 "-c"; constraints_path here session ] ]
     ++ (if bool_decide (python session = "3.9") then [uninstall_pandas_gbq] else [])
     ++ [ pip_freeze;
          Run ([ "py.test"; "-n=8"; "--quiet";
                 "-W default::PendingDeprecationWarning";
                 "--cov=google/cloud/bigquery"; "--cov=tests/unit"; "--cov-append";
                 "--cov-config=.coveragerc"; "--cov-report="; "--cov-fail-under=0";
                 "tests/unit" ] ++ posargs session) ]).
Proof. apply script_duration, (default_script session true). Qed.

Lemma system_script session w :
  os_environ_get environ "GOOGLE_APPLICATION_CREDENTIALS" "" <> "" ->
  follows_script (system tool environ here session) w
    ([ Install ["--pre"; "grpcio!=1.49.0rc1"; "-c"; constraints_path here session];
       Install [ "pytest"; "psutil"; "pytest-xdist"; "google-cloud-testutils"; "-c";
                 constraints_path here session ];
       Install (if bool_decide
                     (os_environ_get environ "GOOGLE_API_USE_CLIENT_CERTIFICATE" "" = "true")
                then ["google-cloud-storage"; "pyopenssl"]
                else ["google-cloud-storage"; "-c"; constraints_path here session]);
       Install ["google-cloud-datacatalog"; "-c"; constraints_path here session];
       Install ["google-cloud-resource-manager"; "-c"; constraints_path here session];
       Install [ "-e";
                 if bool_decide (python session ∈ ["3.11"; "3.12"])
                 then ".[bqstorage,ipywidgets,pandas,tqdm,opentelemetry]"
                 else ".[all]";
                 "-c"; constraints_path here session ] ]
     ++ (if bool_decide (python session = "3.9") then [uninstall_pandas_gbq] else [])
     ++ [ pip_freeze;
          Run ([ "py.test"; "-n=auto"; "--quiet";
                 "-W default::PendingDeprecationWarning"; "tests/system" ]
                 ++ posargs session) ]).
Proof.
  intros Hcred. unfold system. apply script_duration. cbv zeta.
  rewrite (bool_decide_eq_false_2 _ Hcred).
  destruct (bool_decide (os_environ_get environ "GOOGLE_API_USE_CLIENT_CERTIFICATE" "" = "true"));
    destruct (bool_decide (python session ∈ ["3.11"; "3.12"])); script.
Qed.

Lemma snippets_script session w :
  follows_script (snippets tool here session) w
    [ Install [ "pytest"; "pytest-xdist"; "google-cloud-testutils"; "-c";
                constraints_path here session ];
      Install ["google-cloud-storage"; "-c"; constraints_path here session];
      Install ["grpcio"; "-c"; constraints_path here session];
      Install [ "-e";
                if bool_decide (python session ∈ ["3.11"; "3.12"])
                then ".[bqstorage,pandas,ipywidgets,geopandas,tqdm,opentelemetry,bigquery_v2]"
                else ".[all]";
                "-c"; constraints_path here session ];
      pip_freeze;
      Run (["py.test"; "-n=auto"; "docs/snippets.py"] ++ posargs session);
      Run ([ "py.test"; "-n=auto"; "samples";
             "-W default::PendingDeprecationWarning";
             "--ignore=samples/desktopapp"; "--ignore=samples/magics";
             "--ignore=samples/geography"; "--ignore=samples/notebooks";
             "--ignore=samples/snippets" ] ++ posargs session) ].
Proof.
  unfold snippets. apply script_duration. cbv zeta.
  destruct (bool_decide (python session ∈ ["3.11"; "3.12"])); script.
Qed.

End SessionScripts.

(** ** The system-test session without credentials *)

(** Without credentials the session stops at the check, with the same
    world it started in, whatever the external commands would do. *)
Lemma system_without_credentials tool environ here session w :
  os_environ_get environ "GOOGLE_APPLICATION_CREDENTIALS" "" = "" ->
  system tool environ here session w
  = (Raised (SessionSkip "Credentials must be set via environment variable."), w).
Proof.
  intros Hcred.
  unfold system, _calculate_duration, bind, time_monotonic, when, session_skip, raise.
  cbv zeta. by rewrite Hcred.
Qed.

Lemma unset_or_empty (environ : gmap string string) key :
  environ !! key = None \/ environ !! key = Some "" ->
  os_environ_get environ key "" = "".
Proof. unfold os_environ_get. by intros [-> | ->]. Qed.

(** C1: whenever GOOGLE_APPLICATION_CREDENTIALS is unset or set to the empty
    string, the system-test session ends in a skip ([session.skip] raised,
    which the runner counts as passed), not in a failure. *)
Theorem system_soft_skip tool environ here session w :
  environ !! "GOOGLE_APPLICATION_CREDENTIALS" = None
  \/ environ !! "GOOGLE_APPLICATION_CREDENTIALS" = Some "" ->
  (system tool environ here session w).1
  = Raised (SessionSkip "Credentials must be set via environment variable.")
  /\ session_passed (system tool environ here session w).1 = true.
Proof.
  intros Hcred. by rewrite system_without_credentials by by apply unset_or_empty.
Qed.

Lemma system_soft_skip_witness :
  (system Sample.obliging ∅ Sample.checkout (Sample.on "3.12" ["-x"]) Sample.fresh).1
  = Raised (SessionSkip "Credentials must be set via environment variable.")
  /\ (system Sample.obliging {[ "GOOGLE_APPLICATION_CREDENTIALS" := "" ]}
        Sample.checkout (Sample.on "3.9" []) Sample.fresh).1
     = Raised (SessionSkip "Credentials must be set via environment variable.").
Proof.
  split.
  - apply (system_soft_skip Sample.obliging ∅ Sample.checkout
             (Sample.on "3.12" ["-x"]) Sample.fresh).
    left. reflexivity.
  - apply (system_soft_skip Sample.obliging {[ "GOOGLE_APPLICATION_CREDENTIALS" := "" ]}
             Sample.checkout (Sample.on "3.9" []) Sample.fresh).
    right. reflexivity.
Defined.

(** C10: the credentials check comes before every effect of the system-test
    session.  When the variable is unset or empty the session leaves the
    world exactly as it found it (no command recorded, no file changed,
    nothing printed), and its result does not depend on what the external
    commands would have done; when it is set, the first thing the session
    does is an installation. *)
Theorem system_skip_is_atomic tool environ here session w :
  environ !! "GOOGLE_APPLICATION_CREDENTIALS" = None
  \/ environ !! "GOOGLE_APPLICATION_CREDENTIALS" = Some "" ->
  (system tool environ here session w).2 = w
  /\ trace (system tool environ here session w).2 = trace w
  /\ files (system tool environ here session w).2 = files w
  /\ (forall tool', system tool' environ here session w
                    = system tool environ here session w)
  /\ (forall environ' : gmap string string,
        os_environ_get environ' "GOOGLE_APPLICATION_CREDENTIALS" "" <> "" ->
        exists rest,
          follows_script (system tool environ' here session) w
            (Install ["--pre"; "grpcio!=1.49.0rc1"; "-c"; constraints_path here session]
               :: rest)).
Proof.
  intros Hcred. apply unset_or_empty in Hcred.
  rewrite system_without_credentials by done. repeat split.
  - intros tool'. by rewrite system_without_credentials.
  - intros environ' Hset. eexists. by apply system_script.
Qed.

Lemma system_skip_is_atomic_witness :
  (system Sample.obliging ∅ Sample.checkout (Sample.on "3.13" []) Sample.fresh).2
  = Sample.fresh.
Proof.
  apply (system_skip_is_atomic Sample.obliging ∅ Sample.checkout
           (Sample.on "3.13" []) Sample.fresh).
  left. reflexivity.
Defined.

(** ** The constraints file *)

Lemma constraints_path_of_version here session v :
  python session = v ->
  Str.startswith_sep ("constraints-" +:+ v +:+ ".txt") = false ->
  path_names ("constraints-" +:+ v +:+ ".txt") = ["constraints-" +:+ v +:+ ".txt"] ->
  constraints_path here session
  = "/" +:+ String.concat "/" (here ++ ["testing"; "constraints-" +:+ v +:+ ".txt"]).
Proof.
  intros <- Hrel Hone. unfold constraints_path, truediv at 1. rewrite Hrel.
  unfold path_str. simpl absolute. simpl names. rewrite Hone.
  change (path_names "testing") with ["testing"]. by rewrite <- (assoc_L (++)).
Qed.

(** C2: for every version of the unit-test list, and likewise of the
    system-test list (which the snippets session shares), the constraints
    path the session builds is the absolute path
    <noxfile directory>/testing/constraints-<version>.txt; it depends on
    the session only through its version; and it is the path the unit,
    system and snippets sessions pin their first installation to. *)
Theorem constraints_path_convention here session :
  python session ∈ UNIT_TEST_PYTHON_VERSIONS
  \/ python session ∈ SYSTEM_TEST_PYTHON_VERSIONS ->
  constraints_path here session
  = path_str {| absolute := true;
                names := here ++ ["testing";
                                  "constraints-" +:+ python session +:+ ".txt"] |}
  /\ constraints_path here session
     = "/" +:+ String.concat "/"
                 (here ++ ["testing"; "constraints-" +:+ python session +:+ ".txt"])
  /\ (forall other, python other = python session ->
                    constraints_path here other = constraints_path here session)
  /\ (forall tool w, exists rest,
        follows_script (unit tool here session) w
          (Install [ "pytest"; "google-cloud-testutils"; "pytest-cov";
                     "pytest-xdist"; "freezegun"; "-c";
                     constraints_path here session ] :: rest))
  /\ (forall tool environ w,
        os_environ_get environ "GOOGLE_APPLICATION_CREDENTIALS" "" <> "" ->
        exists rest,
          follows_script (system tool environ here session) w
            (Install ["--pre"; "grpcio!=1.49.0rc1"; "-c";
                      constraints_path here session] :: rest))
  /\ (forall tool w, exists rest,
        follows_script (snippets tool here session) w
          (Install [ "pytest"; "pytest-xdist"; "google-cloud-testutils"; "-c";
                     constraints_path here session ] :: rest)).
Proof.
  intros Hv.
  assert (constraints_path here session
          = "/" +:+ String.concat "/"
              (here ++ ["testing"; "constraints-" +:+ python session +:+ ".txt"]))
    as Hpath.
  { assert (python session ∈ ["3.9"; "3.11"; "3.12"; "3.13"]) as Hin
      by (by destruct Hv).
    repeat (apply elem_of_cons in Hin as [Hin|Hin];
            [by rewrite Hin; apply constraints_path_of_version|]).
    by apply elem_of_nil in Hin. }
  split; [done|]. split; [done|]. split.
  { intros other Heq. unfold constraints_path. by rewrite Heq. }
  split; [|split].
  - intros tool w. eexists. apply unit_script.
  - intros tool environ w Hcred. eexists. by apply system_script.
  - intros tool w. eexists. apply snippets_script.
Qed.

Lemma constraints_path_convention_witness :
  constraints_path Sample.checkout (Sample.on "3.11" ["-k"; "load"])
  = "/src/python-bigquery/testing/constraints-3.11.txt".
Proof.
  refine (proj1 (proj2 (constraints_path_convention Sample.checkout
                          (Sample.on "3.11" ["-k"; "load"]) _))).
  left. apply elem_of_cons. right. apply elem_of_cons. left. reflexivity.
Defined.

(** ** The timing decorator *)




Lemma append_assoc (a b c : string) : (a +:+ b) +:+ c = a +:+ (b +:+ c).
Proof.
  induction a as [|x a IH]; [reflexivity|].
  change (String x ((a +:+ b) +:+ c) = String x (a +:+ b +:+ c)). by rewrite IH.
Qed.




(** ** Formatter paths *)

(** C8: the formatter path list is a fixed, non-empty list of path strings
    that holds the library source directory [google], the tests, docs and
    samples directories and [noxfile.py] itself; the lint session hands
    exactly this list to [black --check] and the blacken session hands
    exactly this list to [black]. *)
Theorem black_paths_shared tool session w :
  BLACK_PATHS = [ "benchmark"; "docs"; "google"; "samples"; "samples/tests";
                  "tests"; "noxfile.py"; "setup.py" ]
  /\ BLACK_PATHS <> []
  /\ Forall (fun p => p ∈ BLACK_PATHS) ["google"; "tests"; "docs"; "samples"; "noxfile.py"]
  /\ runs_only "black" (lint tool session) w (fun args => args = "--check" :: BLACK_PATHS)
  /\ runs_only "black" (blacken tool session) w (fun args => args = BLACK_PATHS).
Proof.
  split; [done|]. split; [done|]. split.
  { unfold BLACK_PATHS. repeat constructor. }
  split.
  - eapply script_runs_only.
    + unfold lint. script.
    + intros args Hin. which_command Hin. by injection Hin as ->.
    + eexists. do 8 apply list_elem_of_further. apply list_elem_of_here.
  - eapply script_runs_only.
    + unfold blacken. script.
    + intros args Hin. which_command Hin. by injection Hin as ->.
    + eexists. do 2 apply list_elem_of_further. apply list_elem_of_here.
Qed.

(** ** Arguments handed to the test runner *)


Lemma install_any_script tool args rest w :
  follows_script (session_install tool args) w
    (match args with [] => rest | _ => [Install args] end).
Proof.
  destruct args as [|x args]; [|apply script_install].
  exists []. split; [by rewrite app_nil_r|]. split; [apply prefix_nil|done].
Qed.

(** The commands of [prerelease_deps] once its constraints file is read. *)
Lemma prerelease_deps_script tool here session w text :
  files w !! prerelease_constraints here = Some text ->
  follows_script (prerelease_deps tool here session) w
    ((match Re.constraint_names text with
      | [] => []
      | _ => [Install (Re.constraint_names text)]
      end)
     ++ [ Install [ "--pre"; "--upgrade"; "freezegun"; "google-cloud-datacatalog";
                    "google-cloud-resource-manager"; "google-cloud-storage";
                    "google-cloud-testutils"; "psutil"; "pytest"; "pytest-xdist";
                    "pytest-cov" ];
          Install [ "--extra-index-url";
                    "https://pypi.anaconda.org/scientific-python-nightly-wheels/simple";
                    "--prefer-binary"; "--pre"; "--upgrade"; "pyarrow" ];
          Install [ "--pre"; "--upgrade"; "IPython"; "ipykernel"; "ipywidgets"; "tqdm";
                    "git+https://github.com/pypa/packaging.git"; "pandas" ];
          Install [ "--pre"; "--upgrade"; "--no-deps"; "google-api-core";
                    "google-cloud-bigquery-storage"; "google-cloud-core";
                    "google-resumable-media"; "db-dtypes"; "grpcio"; "protobuf" ];
          Install ["-e"; "."; "--no-deps"];
          pip_freeze;
          Run ["py.test"; "-n=auto"; "tests/unit"; "-W default::PendingDeprecationWarning"];
          Run ["py.test"; "-n=auto"; "tests/system"; "-W default::PendingDeprecationWarning"];
          Run ["py.test"; "-n=auto"; "samples/tests"; "-W default::PendingDeprecationWarning"] ]).
Proof.
  intros Hfile. unfold prerelease_deps. apply script_duration.
  apply (script_read_some _ text); [done|]. cbv zeta.
  eapply script_conv.
  - eapply script_bind; [apply (install_any_script _ _ [])|intros ? ? _]. script_steps.
  - reflexivity.
Qed.

Lemma prerelease_deps_unreadable tool here session w :
  files w !! prerelease_constraints here = None ->
  prerelease_deps tool here session w
  = (Raised (FileNotFoundError (prerelease_constraints here)), w).
Proof.
  intros Hfile. unfold prerelease_deps, _calculate_duration, time_monotonic.
  unfold bind, read_text.
  change (path_str _) with (prerelease_constraints here). by rewrite Hfile.
Qed.

(** C5, as the code has it: in the unit, system and snippets sessions every
    call of py.test ends with the command-line arguments, verbatim and in
    order, after the session's own fixed arguments, and a session that
    returns has called py.test.  The prerelease_deps session calls py.test
    with one of three fixed argument lists and does not look at the session
    object at all. *)
Theorem posargs_forwarded tool environ here session w :
  runs_only "py.test" (unit tool here session) w
    (fun args =>
       args = [ "-n=8"; "--quiet"; "-W default::PendingDeprecationWarning";
                "--cov=google/cloud/bigquery"; "--cov=tests/unit"; "--cov-append";
                "--cov-config=.coveragerc"; "--cov-report="; "--cov-fail-under=0";
                "tests/unit" ] ++ posargs session)
  /\ runs_only "py.test" (system tool environ here session) w
       (fun args =>
          args = [ "-n=auto"; "--quiet"; "-W default::PendingDeprecationWarning";
                   "tests/system" ] ++ posargs session)
  /\ runs_only "py.test" (snippets tool here session) w
       (fun args =>
          args = ["-n=auto"; "docs/snippets.py"] ++ posargs session
          \/ args = [ "-n=auto"; "samples"; "-W default::PendingDeprecationWarning";
                      "--ignore=samples/desktopapp"; "--ignore=samples/magics";
                      "--ignore=samples/geography"; "--ignore=samples/notebooks";
                      "--ignore=samples/snippets" ] ++ posargs session)
  /\ runs_only "py.test" (prerelease_deps tool here session) w
       (fun args =>
          args ∈ [ ["-n=auto"; "tests/unit"; "-W default::PendingDeprecationWarning"];
                   ["-n=auto"; "tests/system"; "-W default::PendingDeprecationWarning"];
                   ["-n=auto"; "samples/tests"; "-W default::PendingDeprecationWarning"] ])
  /\ (forall other, prerelease_deps tool here other = prerelease_deps tool here session).
Proof.
  split; [|split; [|split; [|split]]].
  - eapply script_runs_only; [apply unit_script| |].
    + intros args Hin. destruct (bool_decide (python session = "3.9"));
        which_command Hin; by injection Hin as ->.
    + eexists. apply elem_of_app. right. apply elem_of_app. right.
      apply list_elem_of_further, list_elem_of_here.
  - destruct (decide (os_environ_get environ "GOOGLE_APPLICATION_CREDENTIALS" "" = ""))
      as [Hno|Hyes].
    + exists []. rewrite system_without_credentials by done.
      split; [by rewrite app_nil_r|]. split; [|done].
      intros args Hin. by apply elem_of_nil in Hin.
    + eapply script_runs_only; [by apply system_script| |].
      * intros args Hin. destruct (bool_decide (python session = "3.9"));
          which_command Hin; by injection Hin as ->.
      * eexists. apply elem_of_app. right. apply elem_of_app. right.
        apply list_elem_of_further, list_elem_of_here.
  - eapply script_runs_only; [apply snippets_script| |].
    + intros args Hin. which_command Hin.
      * left. by injection Hin as ->.
      * right. by injection Hin as ->.
    + eexists. do 5 apply list_elem_of_further. apply list_elem_of_here.
  - destruct (files w !! prerelease_constraints here) as [text|] eqn:Hfile.
    + eapply script_runs_only; [by apply prerelease_deps_script| |].
      * intros args Hin. apply elem_of_app in Hin as [Hin|Hin].
        { destruct (Re.constraint_names text); which_command Hin. }
        which_command Hin; injection Hin as ->; repeat constructor.
      * eexists. apply elem_of_app. right.
        do 6 apply list_elem_of_further. apply list_elem_of_here.
    + exists []. rewrite prerelease_deps_unreadable by done.
      split; [by rewrite app_nil_r|]. split; [|done].
      intros args Hin. by apply elem_of_nil in Hin.
  - done.
Qed.

(** C5 as stated fails: run on the sample checkout with [-k smoke] after
    the [--], prerelease_deps calls py.test, and none of its calls ends
    with these arguments. *)
Lemma prerelease_deps_drops_posargs :
  ~ runs_only "py.test"
      (prerelease_deps Sample.obliging Sample.checkout
         (Sample.on "3.13" ["-k"; "smoke"]))
      Sample.fresh
      (fun args => posargs (Sample.on "3.13" ["-k"; "smoke"]) `suffix_of` args).
Proof.
  intros (steps & Htrace & Hall & _).
  assert (Run ["py.test"; "-n=auto"; "tests/unit";
               "-W default::PendingDeprecationWarning"] ∈ steps.*1) as Hcalled.
  { simpl in Htrace. rewrite <- Htrace. vm_compute. repeat constructor. }
  apply Hall in Hcalled. revert Hcalled.
  apply (bool_decide_eq_false_1 _). by vm_compute.
Qed.

(** ** The documentation sessions *)


Lemma docs_script tool session w :
  follows_script (docs tool session) w
    [ Install [ "sphinxcontrib-applehelp==1.0.4"; "sphinxcontrib-devhelp==1.0.2";
                "sphinxcontrib-htmlhelp==2.0.1"; "sphinxcontrib-qthelp==1.0.3";
                "sphinxcontrib-serializinghtml==1.1.5"; "sphinx==4.5.0"; "alabaster";
                "recommonmark" ];
      Install ["google-cloud-storage"];
      Install ["-e"; ".[all]"];
      Rmtree "docs/_build";
      pip_freeze;
      Run docs_build ].
Proof. unfold docs. script. Qed.

Lemma docfx_script tool session w :
  follows_script (docfx tool session) w
    [ Install ["-e"; "."];
      Install [ "sphinxcontrib-applehelp==1.0.4"; "sphinxcontrib-devhelp==1.0.2";
                "sphinxcontrib-htmlhelp==2.0.1"; "sphinxcontrib-qthelp==1.0.3";
                "sphinxcontrib-serializinghtml==1.1.5"; "gcp-sphinx-docfx-yaml";
                "alabaster"; "recommonmark" ];
      Rmtree "docs/_build";
      pip_freeze;
      Run docfx_build ].
Proof. unfold docfx. script. Qed.

Lemma docfx_build_lenient : "-W" ∉ docfx_build.
Proof. intros Hin. vm_compute in Hin. which_command Hin. Qed.

(** C6, as the code has it: the docs session calls the documentation
    generator with [-W] (warnings are errors), and only so; the docfx
    session calls it without [-W]. *)
Theorem warnings_as_errors_in_docs tool session w :
  runs_only "sphinx-build" (docs tool session) w
    (fun args => "-W" ∈ args /\ ("sphinx-build" :: args) = docs_build)
  /\ runs_only "sphinx-build" (docfx tool session) w
       (fun args => ("-W" ∉ args) /\ ("sphinx-build" :: args) = docfx_build).
Proof.
  split.
  - eapply script_runs_only; [apply docs_script| |].
    + intros args Hin. which_command Hin. injection Hin as ->.
      split; [apply list_elem_of_here|done].
    + eexists. do 5 apply list_elem_of_further. apply list_elem_of_here.
  - eapply script_runs_only; [apply docfx_script| |].
    + intros args Hin. which_command Hin. injection Hin as ->.
      split; [|done]. intros HW. apply docfx_build_lenient.
      by apply list_elem_of_further.
    + eexists. do 4 apply list_elem_of_further. apply list_elem_of_here.
Qed.

(** C6 as stated fails: the docfx session, run on the sample checkout,
    calls the documentation generator, and not with [-W]. *)
Lemma docfx_without_warnings_as_errors :
  ~ runs_only "sphinx-build" (docfx Sample.obliging (Sample.on "3.10" []))
      Sample.fresh (fun args => "-W" ∈ args).
Proof.
  intros (steps & Htrace & Hall & _).
  assert (Run docfx_build ∈ steps.*1) as Hcalled.
  { simpl in Htrace. rewrite <- Htrace. vm_compute. repeat constructor. }
  apply Hall in Hcalled. apply docfx_build_lenient. by apply list_elem_of_further.
Qed.








(** ** Extras per interpreter version *)




(** ** Dispatch on the session name *)

Section Registry.

Variable tool : Action -> gmap string string -> Reply.
Variable environ : gmap string string.
Variable here : list string.

Lemma find_session_unknown name table :
  name ∉ table.*1 -> find_session name table = None.
Proof.
  induction table as [|[n entry] table IH]; [done|]. simpl. intros Hnot.
  apply not_elem_of_cons in Hnot as [Hne Hnot].
  rewrite bool_decide_eq_false_2 by done. by apply IH.
Qed.

Lemma find_session_known name table :
  name ∈ table.*1 ->
  exists entry, find_session name table = Some entry /\ (name, entry) ∈ table.
Proof.
  induction table as [|[n entry] table IH]; simpl; intros Hin.
  { by apply elem_of_nil in Hin. }
  destruct (decide (n = name)) as [->|Hne].
  - exists entry. rewrite bool_decide_eq_true_2 by done.
    split; [done|apply list_elem_of_here].
  - rewrite bool_decide_eq_false_2 by done.
    apply elem_of_cons in Hin as [Heq|Hin]; [done|].
    destruct (IH Hin) as (e & Hfind & Hmem). exists e.
    split; [done|by apply list_elem_of_further].
Qed.

Lemma run_versions_length proc args versions w :
  length (run_versions proc args versions w).1 = length versions.
Proof.
  revert w. induction versions as [|v versions IH]; intros w; [done|]. simpl.
  destruct (proc _ w) as [r w1]. specialize (IH w1).
  destruct (run_versions proc args versions w1) as [rs w2]. simpl in *. by rewrite IH.
Qed.

Lemma registered_versions name versions proc :
  (name, (versions, proc)) ∈ registered tool environ here -> versions <> [].
Proof.
  unfold registered. intros Hin.
  repeat (apply elem_of_cons in Hin as [Hin|Hin]; [by injection Hin as -> -> ->|]).
  by apply elem_of_nil in Hin.
Qed.

(** C9, on the dispatch modelled from the spec: a name that is not
    registered gives the "no such session" error, a non-zero exit, and
    leaves the world untouched, so it is an error and not a silent no-op; a
    registered name is found with its procedure, which is run once for each
    of its (at least one) interpreter versions.  The noxfile registers
    fourteen names, all different, and every session of the default list is
    among them. *)
Theorem unknown_session_rejected name args w :
  (name ∉ registered_names tool environ here ->
     dispatch tool environ here name args w = (NoSuchSession name, w)
     /\ exits_zero (dispatch tool environ here name args w).1 = false)
  /\ (name ∈ registered_names tool environ here ->
        exists versions proc,
          (name, (versions, proc)) ∈ registered tool environ here
          /\ versions <> []
          /\ dispatch tool environ here name args w
             = (Executed proc (run_versions proc args versions w).1,
                (run_versions proc args versions w).2)
          /\ length (run_versions proc args versions w).1 = length versions)
  /\ registered_names tool environ here
     = [ "unit"; "unit_noextras"; "mypy"; "pytype"; "system"; "mypy_samples";
         "snippets"; "cover"; "prerelease_deps"; "lint"; "lint_setup_py";
         "blacken"; "docs"; "docfx" ]
  /\ NoDup (registered_names tool environ here)
  /\ (forall s, s ∈ default_sessions -> s ∈ registered_names tool environ here).
Proof.
  split; [|split; [|split; [|split]]].
  - intros Hnot. unfold dispatch. by rewrite find_session_unknown.
  - intros Hin. apply find_session_known in Hin as ([versions proc] & Hfind & Hmem).
    exists versions, proc. split; [done|]. split; [by eapply registered_versions|].
    split; [|apply run_versions_length].
    unfold dispatch. rewrite Hfind. by destruct (run_versions proc args versions w).
  - done.
  - apply (bool_decide_unpack _). by vm_compute.
  - intros s Hs. unfold default_sessions in Hs.
    repeat (apply elem_of_cons in Hs as [->|Hs];
            [apply (bool_decide_unpack _); by vm_compute|]).
    by apply elem_of_nil in Hs.
Qed.

End Registry.

Lemma unknown_session_rejected_witness :
  dispatch Sample.obliging ∅ Sample.checkout "unit-tests" ["-x"] Sample.fresh
  = (NoSuchSession "unit-tests", Sample.fresh)
  /\ exists versions proc,
       ("blacken", (versions, proc)) ∈ registered Sample.obliging ∅ Sample.checkout
       /\ versions <> []
       /\ dispatch Sample.obliging ∅ Sample.checkout "blacken" [] Sample.fresh
          = (Executed proc (run_versions proc [] versions Sample.fresh).1,
             (run_versions proc [] versions Sample.fresh).2)
       /\ length (run_versions proc [] versions Sample.fresh).1 = length versions.
Proof.
  pose proof (unknown_session_rejected Sample.obliging ∅ Sample.checkout
                "unit-tests" ["-x"] Sample.fresh) as (Hunknown & _).
  pose proof (unknown_session_rejected Sample.obliging ∅ Sample.checkout
                "blacken" [] Sample.fresh) as (_ & Hknown & _).
  split.
  - apply Hunknown. apply (bool_decide_unpack _). by vm_compute.
  - apply Hknown. apply (bool_decide_unpack _). by vm_compute.
Defined.

(** ** How every session behaves *)

Section Conduct.

Variable tool : Action -> gmap string string -> Reply.
Variable allowed : Exn -> Prop.

Lemma conduct_ret {A} (a : A) w : conduct tool allowed (ret a) w.
Proof.
  split; [|done]. exists []. split; [by rewrite app_nil_r|apply Forall_nil_2].
Qed.

Lemma conduct_raise {A} e w :
  (forall a, e <> CommandFailed a) -> allowed e ->
  conduct tool allowed (@raise A e) w.
Proof.
  intros Hne He. split; [|split; [done|by intros ? [= <-]]].
  exists []. split; [by rewrite app_nil_r|]. simpl.
  destruct e; try apply Forall_nil_2. by destruct (Hne a).
Qed.

Lemma conduct_bind {A B} (m : M A) (f : A -> M B) w :
  conduct tool allowed m w ->
  (forall a w1, m w = (Returned a, w1) -> conduct tool allowed (f a) w1) ->
  conduct tool allowed (bind m f) w.
Proof.
  intros ((steps1 & Ht1 & Hs1) & Hc1 & He1) Hk. unfold conduct, halts_at_first_failure, bind.
  destruct (m w) as [[a|e] w1] eqn:Hm; simpl in *.
  - destruct (Hk a w1 eq_refl) as ((steps2 & Ht2 & Hs2) & Hc2 & He2).
    split; [|split; [congruence|done]].
    exists (steps1 ++ steps2). split; [by rewrite Ht2, Ht1, (assoc_L (++))|].
    destruct (f a w1) as [[b|e2] w2]; simpl in *; [by apply Forall_app|].
    destruct e2; try (by apply Forall_app).
    destruct Hs2 as (before & fs & -> & Hfail & Hbefore).
    exists (steps1 ++ before), fs. split; [by rewrite (assoc_L (++))|].
    split; [done|by apply Forall_app].
  - split; [by exists steps1|]. split; [done|]. intros e0 [= <-]. by apply He1.
Qed.

Lemma conduct_external a w :
  allowed (CommandFailed a) -> conduct tool allowed (external tool a) w.
Proof.
  intros Ha. unfold conduct, halts_at_first_failure, external.
  destruct (ok (tool a (files w))) eqn:Hok; simpl.
  - split; [|done]. exists [(a, files w)]. split; [done|].
    apply Forall_singleton. unfold succeeded. by destruct a.
  - split; [|split; [done|by intros ? [= <-]]].
    exists [(a, files w)]. split; [done|]. by exists [], (files w).
Qed.

Lemma conduct_run args w :
  allowed (CommandFailed (Run args)) -> conduct tool allowed (session_run tool args) w.
Proof. apply conduct_external. Qed.

Lemma conduct_install_any args w :
  allowed (CommandFailed (Install args)) ->
  allowed (ValueError "At least one argument required to install().") ->
  conduct tool allowed (session_install tool args) w.
Proof.
  intros Hfail Hvalue. destruct args as [|x args]; [|by apply conduct_external].
  by apply conduct_raise.
Qed.

Lemma conduct_install x args w :
  allowed (CommandFailed (Install (x :: args))) ->
  conduct tool allowed (session_install tool (x :: args)) w.
Proof. apply conduct_external. Qed.

Lemma conduct_skip reason w :
  allowed (SessionSkip reason) -> conduct tool allowed (session_skip reason) w.
Proof. by apply conduct_raise. Qed.

Lemma conduct_rmtree path w : conduct tool allowed (shutil_rmtree path) w.
Proof.
  split; [|done]. exists [(Rmtree path, files w)]. split; [done|].
  by apply Forall_singleton.
Qed.

Lemma conduct_read path w :
  allowed (FileNotFoundError path) -> conduct tool allowed (read_text path) w.
Proof.
  intros Hmissing. unfold conduct, halts_at_first_failure, read_text.
  destruct (files w !! path); simpl.
  - split; [|done]. exists []. split; [by rewrite app_nil_r|apply Forall_nil_2].
  - split; [|split; [done|by intros ? [= <-]]].
    exists []. split; [by rewrite app_nil_r|apply Forall_nil_2].
Qed.

Lemma conduct_glob here w : conduct tool allowed (glob_sample_requirements here) w.
Proof.
  split; [|done]. exists []. split; [by rewrite app_nil_r|apply Forall_nil_2].
Qed.

Lemma conduct_when c body w :
  (c = true -> conduct tool allowed body w) -> conduct tool allowed (when c body) w.
Proof. destruct c; [by intros H; apply H|]. intros _. apply conduct_ret. Qed.

Lemma conduct_for_each {A} (xs : list A) body w :
  (forall x w1, conduct tool allowed (body x) w1) ->
  conduct tool allowed (for_each xs body) w.
Proof.
  intros Hbody. revert w. induction xs as [|x xs IH]; intros w; [apply conduct_ret|].
  simpl. apply conduct_bind; [apply Hbody|]. intros _ w1 _. apply IH.
Qed.

(** The decorator passes the result and the commands through, and prints
    its line when, and only when, the wrapped function returns. *)
Lemma decorated_result {A B} (func : A -> M B) args w :
  (_calculate_duration func args w).1 = (func args w).1
  /\ trace (_calculate_duration func args w).2 = trace (func args w).2
  /\ clock (_calculate_duration func args w).2 = clock (func args w).2
  /\ console (_calculate_duration func args w).2
     = console (func args w).2
         ++ (if is_returned (func args w).1
             then [timing_line (py_round (clock (func args w).2 - clock w))]
             else []).
Proof.
  unfold _calculate_duration, bind, time_monotonic, print, ret. cbv zeta.
  destruct (func args w) as [[b|e] w1]; simpl; [done|]. by rewrite app_nil_r.
Qed.

End Conduct.

(** Steps through a session body, establishing its conduct. *)
Ltac conduct_steps :=
  repeat first
    [ eapply conduct_bind; [|intros ? ? _]
    | apply conduct_install; exact I
    | apply conduct_run; exact I
    | apply conduct_rmtree
    | apply conduct_glob
    | apply conduct_ret
    | apply conduct_for_each; intros ? ?
    | apply conduct_when; intros ?
    | match goal with
      | |- conduct _ _ (if ?c then _ else _) _ => destruct c
      end ].

Section Registered.

Variable tool : Action -> gmap string string -> Reply.
Variable environ : gmap string string.
Variable here : list string.

(** Every registered session is a decorated body, and the body conducts
    itself as above. *)
Lemma registered_conduct name versions proc :
  (name, (versions, proc)) ∈ registered tool environ here ->
  exists body : Session -> M (),
    proc = _calculate_duration body
    /\ forall session w,
         conduct tool (expected_exception environ here name) (body session) w.
Proof.
  unfold registered. intros Hin.
  repeat (apply elem_of_cons in Hin as [Hin|Hin];
          [injection Hin as -> -> ->; eexists; split; [reflexivity|];
           intros session w; cbv beta zeta; try unfold default;
           conduct_steps|]);
    try (by apply elem_of_nil in Hin).
  - apply conduct_skip. split; [done|]. split; [done|].
    by eapply bool_decide_eq_true_1.
  - apply conduct_read. by split.
  - by apply conduct_install_any.
Qed.

(** X1: every session of the noxfile stops at its first failing command:
    when a session ends with a failed command, that command is the last one
    it issued and every earlier one succeeded; when it ends in any other
    way, every command it issued succeeded. *)
Theorem sessions_halt_at_first_failure name versions proc session w :
  (name, (versions, proc)) ∈ registered tool environ here ->
  halts_at_first_failure tool (proc session) w.
Proof.
  intros Hin. destruct (registered_conduct _ _ _ Hin) as (body & -> & Hbody).
  destruct (Hbody session w) as ((steps & Htrace & Hsteps) & _).
  destruct (decorated_result body session w) as (Hres & Htr & _).
  exists steps. rewrite Htr, Hres. by split.
Qed.



End Registered.

Lemma sessions_halt_at_first_failure_witness :
  (lint Sample.strict (Sample.on "3.9" []) Sample.fresh).1
  = Raised (CommandFailed (Run ["flake8"; "google/cloud/bigquery"]))
  /\ halts_at_first_failure Sample.strict
       (lint Sample.strict (Sample.on "3.9" [])) Sample.fresh.
Proof.
  split; [reflexivity|].
  apply (sessions_halt_at_first_failure Sample.strict ∅ Sample.checkout
           "lint" [DEFAULT_PYTHON_VERSION]).
  do 9 apply list_elem_of_further. apply list_elem_of_here.
Defined.



(** ** Installations and the constraints file *)

Lemma script_issues_only {A} (P : Action -> Prop) (m : M A) w s :
  follows_script m w s -> Forall P s -> issues_only P m w.
Proof.
  intros (steps & Htrace & Hprefix & _) Hall. exists steps. split; [done|].
  apply Forall_forall. intros step Hin.
  eapply (proj1 (Forall_forall P s) Hall), elem_of_prefix; [|done].
  by apply list_elem_of_fmap_2.
Qed.

Lemma script_issues_exactly_when {A} a (c : Prop) (m : M A) w s :
  follows_script m w s -> (a ∈ s <-> c) -> issues_exactly_when a c m w.
Proof.
  intros (steps & Htrace & Hprefix & Hall) Hiff. exists steps.
  split; [done|]. split.
  - intros Hin. apply Hiff. by eapply elem_of_prefix.
  - intros Hret Hc. rewrite Hall by done. by apply Hiff.
Qed.

Lemma skipped_issues_nothing tool environ here session w :
  os_environ_get environ "GOOGLE_APPLICATION_CREDENTIALS" "" = "" ->
  exists steps,
    trace (system tool environ here session w).2 = trace w ++ steps
    /\ steps = []
    /\ is_returned (system tool environ here session w).1 = false.
Proof.
  intros Hcred. exists []. rewrite system_without_credentials by done.
  by rewrite app_nil_r.
Qed.

Lemma pinned_end path : pinned path ["-c"; path].
Proof. by exists []. Qed.

Lemma pinned_cons path x args : pinned path args -> pinned path (x :: args).
Proof. intros [packages ->]. by exists (x :: packages). Qed.

Ltac pinned_args := repeat first [apply pinned_end | apply pinned_cons].

(** Checks a property of every entry of an explicit script. *)
Ltac each_command tac :=
  repeat (apply Forall_cons; split; [tac|]); try apply Forall_nil_2.

(** X4: every installation of the unit, system and snippets sessions is
    pinned to the session's constraints file (its arguments end with
    [-c <constraints path>]), with one exception: in the system session,
    when GOOGLE_API_USE_CLIENT_CERTIFICATE is exactly ["true"], the storage
    client is installed together with pyopenssl and without constraints. *)
Theorem installs_are_pinned tool environ here session w :
  issues_only
    (fun a => forall args, a = Install args ->
                           pinned (constraints_path here session) args)
    (unit tool here session) w
  /\ issues_only
       (fun a => forall args, a = Install args ->
          pinned (constraints_path here session) args
          \/ (args = ["google-cloud-storage"; "pyopenssl"]
              /\ os_environ_get environ "GOOGLE_API_USE_CLIENT_CERTIFICATE" "" = "true"))
       (system tool environ here session) w
  /\ issues_only
       (fun a => forall args, a = Install args ->
                              pinned (constraints_path here session) args)
       (snippets tool here session) w.
Proof.
  split; [|split].
  - eapply script_issues_only; [apply unit_script|].
    destruct (bool_decide (python session = "3.9"));
      each_command ltac:(intros args [= <-] || intros args [=]; pinned_args).
  - destruct (decide (os_environ_get environ "GOOGLE_APPLICATION_CREDENTIALS" "" = ""))
      as [Hno|Hyes].
    { destruct (skipped_issues_nothing tool environ here session w Hno)
        as (steps & Htrace & -> & _).
      exists []. by split. }
    eapply script_issues_only; [by apply system_script|].
    destruct (bool_decide (python session = "3.9"));
      case_bool_decide as Hmtls;
      each_command ltac:(intros args [= <-] || intros args [=];
                         first [left; by pinned_args | by right]).
  - eapply script_issues_only; [apply snippets_script|].
    each_command ltac:(intros args [= <-] || intros args [=]; pinned_args).
Qed.

(** X5: the unit and system sessions run [pip uninstall pandas-gbq] only
    under the first version of their version list, and under that version
    they do not return without having run it; the snippets session never
    uninstalls it. *)
Theorem pandas_gbq_uninstalled_on_first_version tool environ here session w :
  issues_exactly_when uninstall_pandas_gbq
    (python session = first_of UNIT_TEST_PYTHON_VERSIONS)
    (unit tool here session) w
  /\ issues_exactly_when uninstall_pandas_gbq
       (python session = first_of SYSTEM_TEST_PYTHON_VERSIONS)
       (system tool environ here session) w
  /\ issues_only (fun a => a <> uninstall_pandas_gbq) (snippets tool here session) w.
Proof.
  split; [|split].
  - eapply script_issues_exactly_when; [apply unit_script|].
    case_bool_decide as Hv; split; try done.
    + intros _. do 2 apply list_elem_of_further. apply list_elem_of_here.
    + intros Hin. which_command Hin.
  - destruct (decide (os_environ_get environ "GOOGLE_APPLICATION_CREDENTIALS" "" = ""))
      as [Hno|Hyes].
    { destruct (skipped_issues_nothing tool environ here session w Hno)
        as (steps & Htrace & -> & Hret).
      exists []. split; [done|]. rewrite Hret.
      split; [by intros Hin; apply elem_of_nil in Hin|done]. }
    eapply script_issues_exactly_when; [by apply system_script|].
    destruct (decide (python session = "3.9")) as [Hv|Hv].
    + rewrite (bool_decide_eq_true_2 _ Hv). split; [done|]. intros _.
      do 6 apply list_elem_of_further. apply list_elem_of_here.
    + rewrite (bool_decide_eq_false_2 _ Hv). split; [|done].
      intros Hin. which_command Hin.
  - eapply script_issues_only; [apply snippets_script|].
    each_command ltac:(discriminate).
Qed.

(** ** The unit session without extras *)




(** ** The constraints file of the prerelease session *)



(** ** The names read from a constraints file *)

Section Pins.

Let nonspace (c : ascii) : bool := negb (Re.is_space c).
Let noeq (c : ascii) : bool := negb (bool_decide (c = "="%char)).
Let clean (c : ascii) : bool := negb (Re.is_space c) && negb (bool_decide (c = "="%char)).

Lemma append_cons c a b : String c a +:+ b = String c (a +:+ b).
Proof. reflexivity. Qed.

Lemma append_nil b : EmptyString +:+ b = b.
Proof. reflexivity. Qed.


Lemma every_char_app p a b :
  every_char p (a +:+ b) = true <-> every_char p a = true /\ every_char p b = true.
Proof.
  induction a as [|c a IH]; [rewrite append_nil; by intuition|].
  rewrite append_cons. simpl. rewrite !andb_true_iff, IH. by intuition.
Qed.



Lemma pinned_here_head x r : Re.pinned_here (String x r) = true -> x = "="%char.
Proof. destruct x as [[] [] [] [] [] [] [] []]; simpl; try discriminate. done. Qed.

Lemma pinned_here_inv run :
  Re.pinned_here run = true ->
  exists x rest, run = "==" +:+ String x rest.
Proof.
  destruct run as [|a run]; [done|]. intros Hp.
  pose proof (pinned_here_head _ _ Hp) as ->.
  destruct run as [|b run]; [done|].
  destruct b as [[] [] [] [] [] [] [] []]; simpl in Hp; try discriminate.
  destruct run as [|x rest]; [done|]. by exists x, rest.
Qed.

Lemma name_part_none run : every_char noeq run = true -> Re.name_part run = None.
Proof.
  induction run as [|c run IH]; [done|]. simpl. intros [_ Hrun]%andb_prop.
  rewrite IH by done. destruct run as [|x r]; [done|].
  destruct (Re.pinned_here (String x r)) eqn:Hp; [|done].
  apply pinned_here_head in Hp as ->. by simpl in Hrun.
Qed.

Lemma name_part_some run g :
  Re.name_part run = Some g ->
  g <> EmptyString
  /\ exists rest, run = g +:+ rest /\ Re.pinned_here rest = true.
Proof.
  revert g. induction run as [|c run IH]; intros g; [done|]. simpl.
  destruct (Re.name_part run) as [g'|].
  - intros [= <-]. destruct (IH g' eq_refl) as (_ & rest & -> & Hp).
    split; [done|]. by exists rest.
  - destruct (Re.pinned_here run) eqn:Hp; [|done]. intros [= <-].
    split; [done|]. by exists run.
Qed.

Lemma nonspace_run_nonspace s : every_char nonspace (Re.nonspace_run s) = true.
Proof.
  induction s as [|c s IH]; [done|]. simpl.
  destruct (Re.is_space c) eqn:Hc; [done|]. simpl. unfold nonspace at 1.
  by rewrite Hc, IH.
Qed.

Lemma nonspace_run_prefix s : exists rest, s = Re.nonspace_run s +:+ rest.
Proof.
  induction s as [|c s [rest IH]]; [by exists EmptyString|]. simpl.
  destruct (Re.is_space c); [by exists (String c s)|].
  exists rest. by rewrite append_cons, <- IH.
Qed.

Lemma nonspace_run_every p s :
  every_char p s = true -> every_char p (Re.nonspace_run s) = true.
Proof.
  destruct (nonspace_run_prefix s) as [rest Hs]. rewrite Hs at 1.
  by intros [? _]%every_char_app.
Qed.

Lemma skip_spaces_suffix s :
  exists spaces, s = spaces +:+ (Re.skip_spaces s).2
                 /\ String.length spaces = (Re.skip_spaces s).1.
Proof.
  induction s as [|c s (spaces & IH & Hlen)]; [by exists EmptyString|]. simpl.
  destruct (Re.is_space c); [|by exists EmptyString].
  destruct (Re.skip_spaces s) as [k r]. simpl in *.
  exists (String c spaces). by rewrite append_cons, <- IH, <- Hlen.
Qed.

Lemma skip_spaces_every p s :
  every_char p s = true -> every_char p (Re.skip_spaces s).2 = true.
Proof.
  destruct (skip_spaces_suffix s) as (spaces & Hs & _). rewrite Hs at 1.
  by intros [_ ?]%every_char_app.
Qed.

Lemma match_here_none s : every_char noeq s = true -> Re.match_here s = None.
Proof.
  intros Hs. unfold Re.match_here.
  pose proof (skip_spaces_every noeq s Hs) as Hr.
  destruct (Re.skip_spaces s) as [k r]. simpl in Hr.
  by rewrite name_part_none by by apply nonspace_run_every.
Qed.

Lemma scan_none text bol skip :
  every_char noeq text = true -> Re.scan bol skip text = [].
Proof.
  revert bol skip. induction text as [|c text IH]; intros bol skip Htext; [done|].
  pose proof Htext as [_ Htail]%andb_prop.
  cbn [Re.scan]. destruct skip as [|k]; [|by apply IH].
  destruct bol; [|by apply IH].
  rewrite (match_here_none (String c text)) by done. by apply IH.
Qed.

(** X8: a text without any [=] holds no pin: the regular expression of
    prerelease_deps finds no name in it (so a constraints file of comments
    and unpinned requirement names leads to the empty installation). *)
Theorem constraint_names_need_pins text :
  every_char (fun c => negb (bool_decide (c = "="%char))) text = true ->
  Re.constraint_names text = [].
Proof. apply scan_none. Qed.

Lemma constraint_names_need_pins_witness :
  Re.constraint_names
    ("# no pins here" +:+ Sample.newline +:+ "pandas>1.0" +:+ Sample.newline)
  = [].
Proof.
  apply (constraint_names_need_pins
           ("# no pins here" +:+ Sample.newline +:+ "pandas>1.0" +:+ Sample.newline)).
  reflexivity.
Defined.

Lemma match_here_some s g len :
  Re.match_here s = Some (g, len) ->
  g <> EmptyString
  /\ every_char nonspace g = true
  /\ exists before x after,
       s = before +:+ g +:+ "==" +:+ String x after /\ Re.is_space x = false.
Proof.
  unfold Re.match_here. destruct (skip_spaces_suffix s) as (spaces & Hs & _).
  destruct (Re.skip_spaces s) as [k r]. simpl in Hs.
  destruct (Re.name_part (Re.nonspace_run r)) as [g'|] eqn:Hname; [|done].
  intros [= <- _]. destruct (name_part_some _ _ Hname) as (Hne & rest & Hrun & Hp).
  destruct (pinned_here_inv _ Hp) as (x & rest' & ->).
  pose proof (nonspace_run_nonspace r) as Hclean. rewrite Hrun in Hclean.
  apply every_char_app in Hclean as [Hg Hrest].
  destruct (nonspace_run_prefix r) as [r' Hr]. rewrite Hrun in Hr.
  split; [done|]. split; [done|]. exists spaces, x, (rest' +:+ r'). split.
  - rewrite Hs, Hr. by rewrite !append_assoc.
  - simpl in Hrest. apply andb_prop in Hrest as [Hx _].
    by apply negb_true_iff in Hx.
Qed.

Lemma scan_pinned text bol skip :
  Forall (fun g => g <> EmptyString
                   /\ every_char nonspace g = true
                   /\ exists before x after,
                        text = before +:+ g +:+ "==" +:+ String x after
                        /\ Re.is_space x = false)
         (Re.scan bol skip text).
Proof.
  revert bol skip. induction text as [|c text IH]; intros bol skip; [apply Forall_nil_2|].
  assert (forall b k,
            Forall (fun g => g <> EmptyString
                             /\ every_char nonspace g = true
                             /\ exists before x after,
                                  String c text = before +:+ g +:+ "==" +:+ String x after
                                  /\ Re.is_space x = false)
                   (Re.scan b k text)) as Htail.
  { intros b k. eapply Forall_impl; [apply IH|].
    intros g (Hne & Hg & before & x & after & -> & Hx).
    split; [done|]. split; [done|]. by exists (String c before), x, after. }
  cbn [Re.scan]. destruct skip as [|k]; [|apply Htail].
  destruct bol; [|apply Htail].
  destruct (Re.match_here (String c text)) as [[g len]|] eqn:Hmatch; [|apply Htail].
  apply Forall_cons. split; [by eapply match_here_some|apply Htail].
Qed.

(** X9: every name the regular expression of prerelease_deps reads from a
    text is non-empty, holds no white space, and stands in the text directly
    before a [==] that a non-space character follows. *)
Theorem constraint_names_are_pinned text :
  Forall (fun g => g <> EmptyString
                   /\ every_char (fun c => negb (Re.is_space c)) g = true
                   /\ exists before x after,
                        text = before +:+ g +:+ "==" +:+ String x after
                        /\ Re.is_space x = false)
         (Re.constraint_names text).
Proof. apply scan_pinned. Qed.











End Pins.

(** ** What the timing line says *)




(** ** Paths below the noxfile's directory *)

Lemma split_on_no_sep sep s :
  every_char (fun c => negb (bool_decide (c = sep))) s = true ->
  Str.split_on sep s = [s].
Proof.
  induction s as [|c s IH]; [done|]. simpl. intros [Hc Hs]%andb_prop.
  apply negb_true_iff in Hc. by rewrite Hc, IH.
Qed.

Lemma split_on_parts sep s :
  Forall (fun x => every_char (fun c => negb (bool_decide (c = sep))) x = true)
         (Str.split_on sep s).
Proof.
  induction s as [|c s IH]; [by apply Forall_singleton|]. simpl.
  destruct (bool_decide (c = sep)) eqn:Hc; [by apply Forall_cons|].
  destruct (Str.split_on sep s) as [|h t]; [by apply Forall_singleton; simpl; rewrite Hc|].
  apply Forall_cons in IH as [Hh Ht]. apply Forall_cons. split; [|done].
  simpl. by rewrite Hc, Hh.
Qed.

Lemma path_names_single s :
  slash_free s = true -> s <> EmptyString -> s <> "." -> path_names s = [s].
Proof.
  intros Hfree Hne Hdot. unfold path_names. rewrite split_on_no_sep by done.
  unfold filter. simpl. by rewrite decide_True.
Qed.

Lemma length_append a b : String.length (a +:+ b) = (String.length a + String.length b)%nat.
Proof. induction a as [|c a IH]; [done|]. rewrite append_cons. simpl. by rewrite IH. Qed.

Lemma append_inv_head a s1 s2 : a +:+ s1 = a +:+ s2 -> s1 = s2.
Proof. induction a as [|c a IH]; [done|]. rewrite !append_cons. intros [= H]. by apply IH. Qed.

Lemma append_inv_tail t s1 s2 : s1 +:+ t = s2 +:+ t -> s1 = s2.
Proof.
  revert s2. induction s1 as [|c s1 IH]; intros [|c2 s2] Heq; [done| | |].
  - apply (f_equal String.length) in Heq.
    rewrite append_nil, append_cons in Heq. simpl in Heq.
    rewrite length_append in Heq. lia.
  - apply (f_equal String.length) in Heq.
    rewrite append_nil, append_cons in Heq. simpl in Heq.
    rewrite length_append in Heq. lia.
  - rewrite !append_cons in Heq. injection Heq as -> Heq. f_equal. by apply IH.
Qed.

Lemma concat_last_inj sep l x y1 y2 :
  String.concat sep (l ++ [x; y1]) = String.concat sep (l ++ [x; y2]) -> y1 = y2.
Proof.
  induction l as [|a l IH]; simpl.
  - intros Heq. by do 2 apply append_inv_head in Heq.
  - destruct (l ++ [x; y1]) as [|b1 r1] eqn:E1; [by destruct l|].
    destruct (l ++ [x; y2]) as [|b2 r2] eqn:E2; [by destruct l|].
    intros Heq. do 2 apply append_inv_head in Heq. by apply IH.
Qed.

Lemma constraints_file_name v :
  slash_free v = true ->
  Str.startswith_sep ("constraints-" +:+ v +:+ ".txt") = false
  /\ path_names ("constraints-" +:+ v +:+ ".txt") = ["constraints-" +:+ v +:+ ".txt"].
Proof.
  intros Hv. split; [done|]. apply path_names_single; [|done|done].
  unfold slash_free. apply every_char_app. split; [done|].
  apply every_char_app. by split.
Qed.

(** X12: for every interpreter version that holds no slash (not only the
    listed ones) the constraints path is
    <noxfile directory>/testing/constraints-<version>.txt, and two such
    versions with the same constraints path are the same version. *)
Theorem constraints_path_of_any_version here session other :
  slash_free (python session) = true ->
  slash_free (python other) = true ->
  constraints_path here session
  = "/" +:+ String.concat "/"
              (here ++ ["testing"; "constraints-" +:+ python session +:+ ".txt"])
  /\ (constraints_path here other = constraints_path here session ->
      python other = python session).
Proof.
  intros Hs Ho.
  destruct (constraints_file_name _ Hs) as [Hrel Hname].
  destruct (constraints_file_name _ Ho) as [Hrel' Hname'].
  rewrite (constraints_path_of_version here session (python session)) by done.
  split; [done|].
  rewrite (constraints_path_of_version here other (python other)) by done.
  intros Heq. apply append_inv_head, concat_last_inj, append_inv_head in Heq.
  by apply append_inv_tail in Heq.
Qed.

Lemma constraints_path_of_any_version_witness :
  constraints_path Sample.checkout (Sample.on "3.14t" [])
  = "/src/python-bigquery/testing/constraints-3.14t.txt".
Proof.
  refine (proj1 (constraints_path_of_any_version Sample.checkout
                   (Sample.on "3.14t" []) (Sample.on "pypy3.10" []) _ _));
    reflexivity.
Defined.

(** ** The requirements of the samples *)

Section Issues.

Variable tool : Action -> gmap string string -> Reply.
Variable P : Action -> Prop.

Lemma issues_ret {A} (a : A) w : issues_only P (ret a) w.
Proof. exists []. split; [by rewrite app_nil_r|apply Forall_nil_2]. Qed.

Lemma issues_bind {A B} (m : M A) (f : A -> M B) w :
  issues_only P m w ->
  (forall a w1, m w = (Returned a, w1) -> issues_only P (f a) w1) ->
  issues_only P (bind m f) w.
Proof.
  intros (steps1 & Ht1 & Hs1) Hk. unfold issues_only, bind.
  destruct (m w) as [[a|e] w1] eqn:Hm; simpl in *; [|by exists steps1].
  destruct (Hk a w1 eq_refl) as (steps2 & Ht2 & Hs2).
  exists (steps1 ++ steps2). split; [by rewrite Ht2, Ht1, (assoc_L (++))|].
  by apply Forall_app.
Qed.

Lemma issues_external a w : P a -> issues_only P (external tool a) w.
Proof.
  intros Ha. unfold issues_only, external. exists [(a, files w)].
  destruct (ok (tool a (files w))); (split; [done|by apply Forall_singleton]).
Qed.

Lemma issues_install x args w :
  P (Install (x :: args)) -> issues_only P (session_install tool (x :: args)) w.
Proof. apply issues_external. Qed.

Lemma issues_run args w : P (Run args) -> issues_only P (session_run tool args) w.
Proof. apply issues_external. Qed.

Lemma issues_for_each {A} (Q : A -> Prop) (xs : list A) body w :
  Forall Q xs ->
  (forall x w1, Q x -> issues_only P (body x) w1) ->
  issues_only P (for_each xs body) w.
Proof.
  intros Hxs Hbody. revert w.
  induction Hxs as [|x xs Hx Hxs IH]; intros w; [apply issues_ret|].
  simpl. apply issues_bind; [by apply Hbody|]. intros _ w1 _. apply IH.
Qed.

Lemma issues_duration {A B} (func : A -> M B) args w :
  issues_only P (func args) w -> issues_only P (_calculate_duration func args) w.
Proof.
  intros (steps & Htrace & Hsteps). exists steps.
  destruct (decorated_result func args w) as (_ & -> & _). by split.
Qed.

End Issues.

Lemma glob_sample_requirements_yields here w found w1 :
  glob_sample_requirements here w = (Returned found, w1) ->
  Forall (fun p => exists d,
            slash_free d = true
            /\ path_str p
               = "/" +:+ String.concat "/" (here ++ ["samples"; d; "requirements.txt"]))
         found.
Proof.
  unfold glob_sample_requirements. intros [= <- _].
  apply Forall_fmap, Forall_forall. intros k [Hk _]%list_elem_of_filter.
  unfold is_sample_requirements in Hk. apply andb_prop in Hk as [_ Hk].
  apply bool_decide_eq_true_1 in Hk.
  eexists. split; [|simpl; unfold path_str; simpl; by rewrite Hk].
  assert (Forall (fun x => slash_free x = true) (path_names k)) as Hparts.
  { unfold path_names. apply Forall_forall. intros x [_ Hx]%list_elem_of_filter.
    by apply (proj1 (Forall_forall _ _) (split_on_parts "/" k)). }
  rewrite Hk in Hparts. apply Forall_app in Hparts as [_ Hparts].
  apply Forall_cons in Hparts as [_ Hparts]. by apply Forall_cons in Hparts as [? _].
Qed.

(** X13: in the mypy_samples session every installation from a
    requirements file ([-r]) names a file
    <noxfile directory>/samples/<d>/requirements.txt, [d] being a single
    directory name, and every run of mypy takes its configuration from
    <noxfile directory>/samples/mypy.ini and checks [samples/]. *)
Theorem mypy_samples_requirements tool here session w :
  issues_only
    (fun a =>
       match a with
       | Install ("-r" :: rest) =>
           exists d,
             slash_free d = true
             /\ rest = [ "/" +:+ String.concat "/"
                                   (here ++ ["samples"; d; "requirements.txt"]) ]
       | Run ("mypy" :: args) =>
           args = [ "--config-file";
                    "/" +:+ String.concat "/" (here ++ ["samples"; "mypy.ini"]);
                    "--no-incremental"; "samples/" ]
       | _ => True
       end)
    (mypy_samples tool here session) w.
Proof.
  unfold mypy_samples. apply issues_duration.
  apply issues_bind; [by apply issues_install|]. intros _ w1 _.
  apply issues_bind; [apply issues_ret|]. intros found w2 Hfound.
  apply glob_sample_requirements_yields in Hfound.
  apply issues_bind.
  { eapply issues_for_each; [exact Hfound|]. intros p w3 (d & Hd & Hp).
    apply issues_install. exists d. by rewrite Hp. }
  intros _ w3 _.
  repeat (apply issues_bind; [by apply issues_install || by apply issues_run|];
          intros _ ? _).
  apply issues_run. do 2 f_equal.
  unfold truediv at 1, path_str. simpl. by rewrite <- (assoc_L (++)).
Qed.

(** ** Time through a session *)

Section Time.

Variable tool : Action -> gmap string string -> Reply.













End Time.




(** ** The installed packages are listed before the tools run *)

Section Listing.

Variable tool : Action -> gmap string string -> Reply.
Variable P : Action -> Prop.

Lemma issues_raise {A} e w : issues_only P (@raise A e) w.
Proof. exists []. split; [by rewrite app_nil_r|apply Forall_nil_2]. Qed.

Lemma issues_install_any args w :
  P (Install args) -> issues_only P (session_install tool args) w.
Proof. destruct args; [intros _; apply issues_raise|apply issues_external]. Qed.

Lemma issues_rmtree path w : P (Rmtree path) -> issues_only P (shutil_rmtree path) w.
Proof. intros Hp. exists [(Rmtree path, files w)]. split; [done|by apply Forall_singleton]. Qed.

Lemma issues_read path w : issues_only P (read_text path) w.
Proof.
  exists []. unfold read_text.
  destruct (files w !! path); (split; [by rewrite app_nil_r|apply Forall_nil_2]).
Qed.

Lemma issues_glob here w : issues_only P (glob_sample_requirements here) w.
Proof. exists []. split; [by rewrite app_nil_r|apply Forall_nil_2]. Qed.

Lemma issues_when c body w : issues_only P body w -> issues_only P (when c body) w.
Proof. destruct c; [done|]. intros _. apply issues_ret. Qed.

Lemma issues_for_each_any {A} (xs : list A) body w :
  (forall x w1, issues_only P (body x) w1) -> issues_only P (for_each xs body) w.
Proof.
  intros Hbody. apply (issues_for_each P (fun _ => True)); [|by intros].
  by apply Forall_forall.
Qed.

End Listing.

Ltac issues_steps tac :=
  repeat first
    [ apply issues_ret
    | apply issues_raise
    | apply issues_bind; [|intros ? ? _]
    | apply issues_install_any; tac
    | apply issues_run; tac
    | apply issues_rmtree; tac
    | apply issues_read
    | apply issues_glob
    | apply issues_when
    | apply issues_for_each_any; intros ? ?
    | match goal with
      | |- issues_only _ (if ?c then _ else _) _ => destruct c
      end ].

Lemma preparations_freeze_first actions : Forall preparation actions -> freeze_first actions.
Proof.
  intros Hall before prog args after -> Hprog.
  apply Forall_app in Hall as [_ Hall]. apply Forall_cons in Hall as [Hrun _].
  by destruct Hprog, (Hrun prog args).
Qed.

Lemma freeze_first_app l1 l2 :
  Forall preparation l1 -> freeze_first l2 -> freeze_first (l1 ++ l2).
Proof.
  intros Hprep Hrest before prog args after Heq Hprog.
  apply app_eq_inv in Heq as [(k & Hl1 & Heq)|(k & -> & Hl2)].
  - destruct k as [|y k].
    + simpl in Heq.
      pose proof (Hrest [] prog args after (eq_sym Heq) Hprog) as Hin.
      by apply elem_of_nil in Hin.
    + injection Heq as <- _. subst l1. apply Forall_app in Hprep as [_ Hprep].
      apply Forall_cons in Hprep as [Hrun _]. by destruct Hprog, (Hrun prog args).
  - apply elem_of_app. right. by eapply Hrest.
Qed.

Lemma freeze_first_cons rest :
  freeze_first (Run ["python"; "-m"; "pip"; "freeze"] :: rest).
Proof.
  intros [|b before] prog args after Heq Hprog; simpl in Heq.
  - by simplify_eq.
  - assert (b = Run ["python"; "-m"; "pip"; "freeze"]) as -> by congruence.
    apply list_elem_of_here.
Qed.

Lemma prepare_then {A B} (m : M A) (f : A -> M B) w :
  issues_only preparation m w ->
  (forall a w1, m w = (Returned a, w1) -> lists_packages_first (f a) w1) ->
  lists_packages_first (bind m f) w.
Proof.
  intros (steps1 & Ht1 & Hs1) Hk. unfold lists_packages_first, bind.
  assert (Forall preparation steps1.*1) as Hprep by by apply Forall_fmap.
  destruct (m w) as [[a|e] w1] eqn:Hm; simpl in *.
  - destruct (Hk a w1 eq_refl) as (steps2 & Ht2 & Hs2).
    exists (steps1 ++ steps2). split; [by rewrite Ht2, Ht1, (assoc_L (++))|].
    rewrite fmap_app. by apply freeze_first_app.
  - exists steps1. split; [done|]. by apply preparations_freeze_first.
Qed.

Lemma freeze_then tool {B} (f : () -> M B) w :
  (forall a w1, issues_only (fun _ => True) (f a) w1) ->
  lists_packages_first (bind (session_run tool ["python"; "-m"; "pip"; "freeze"]) f) w.
Proof.
  intros Hk. unfold lists_packages_first, bind, session_run, external.
  destruct (ok (tool _ (files w))); simpl.
  - match goal with |- context [f () ?w1] => destruct (Hk () w1) as (steps & Ht & _) end.
    eexists (_ :: steps). rewrite Ht. simpl. split; [by rewrite <- (assoc_L (++))|].
    apply freeze_first_cons.
  - eexists [_]. split; [done|]. apply freeze_first_cons.
Qed.

Lemma lists_duration {A B} (func : A -> M B) args w :
  lists_packages_first (func args) w ->
  lists_packages_first (_calculate_duration func args) w.
Proof.
  intros (steps & Htrace & Hsteps). exists steps.
  destruct (decorated_result func args w) as (_ & -> & _). by split.
Qed.

Ltac listing_steps :=
  apply lists_duration;
  repeat first
    [ apply freeze_then; intros ? ?; issues_steps ltac:(exact I)
    | apply prepare_then;
      [issues_steps ltac:(by intros ? ? ?; simplify_eq)|intros ? ? _]
    | match goal with
      | |- lists_packages_first (if ?c then _ else _) _ => destruct c
      end ].

(** X15: in every session of the noxfile the installed packages are listed
    ([python -m pip freeze]) before any program other than [python] is run:
    no test runner, linter, type checker, coverage tool or documentation
    generator starts before the versions in use have been printed. *)
Theorem sessions_list_packages_first tool environ here name versions proc session w :
  (name, (versions, proc)) ∈ registered tool environ here ->
  lists_packages_first (proc session) w.
Proof.
  unfold registered. intros Hin.
  repeat (apply elem_of_cons in Hin as [Hin|Hin];
          [injection Hin as -> -> ->;
           first [unfold unit | unfold unit_noextras | unfold mypy | unfold pytype
                 | unfold system | unfold mypy_samples | unfold snippets
                 | unfold cover | unfold prerelease_deps | unfold lint
                 | unfold lint_setup_py | unfold blacken | unfold docs
                 | unfold docfx];
           try unfold default; unfold session_skip; cbv zeta; listing_steps|]).
  by apply elem_of_nil in Hin.
Qed.

Lemma sessions_list_packages_first_witness :
  lists_packages_first (lint Sample.strict (Sample.on "3.9" [])) Sample.fresh.
Proof.
  apply (sessions_list_packages_first Sample.strict ∅ Sample.checkout
           "lint" [DEFAULT_PYTHON_VERSION]).
  do 9 apply list_elem_of_further. apply list_elem_of_here.
Defined.
